(** * The quote pipeline of the window-advisor dashboard

    A shallow embedding of the quote manager (parseQuoteText, updateQuoteItem,
    updateQuoteTotalAmount) and of the comparison manager (generateComparison,
    generateComparisonItems, calculateWarnkePrice, the attribute mappers and
    extractOptions), with the properties the specification states about them.

    JavaScript strings are sequences of UTF-16 code units, numbers are binary64
    floats (the kernel's primitive floats), regular expressions are run by a
    backtracking matcher that returns its results in priority order, and
    asynchronous store calls are computations in a state-and-exception monad. *)

From Stdlib Require Import ZArith NArith List Bool String Ascii Floats Lia.
From Stdlib Require Import DecimalString.
Import ListNotations.

Set Warnings "-inexact-float".

(** ** Strings *)

Module JsString.

Definition jschar := N.
Definition jsstring := list jschar.

(** An ASCII literal as a sequence of code units. *)
Definition js (s : string) : jsstring :=
  map N_of_ascii (list_ascii_of_string s).

Definition nl : jschar := 10%N.
Definition times_sign : jschar := 215%N.

Definition ch (a : ascii) : jschar := N_of_ascii a.

Fixpoint eqs (a b : jsstring) : bool :=
  match a, b with
  | [], [] => true
  | x :: a', y :: b' => N.eqb x y && eqs a' b'
  | _, _ => false
  end.

Definition isDigit (c : jschar) : bool := (N.leb 48 c && N.leb c 57)%N.
Definition isUpper (c : jschar) : bool := (N.leb 65 c && N.leb c 90)%N.
Definition isLower (c : jschar) : bool := (N.leb 97 c && N.leb c 122)%N.

(** [\w] : letters, digits and the underscore. *)
Definition isWord (c : jschar) : bool :=
  isDigit c || isUpper c || isLower c || N.eqb c 95.

(** [\s] and [trim] : the WhiteSpace and LineTerminator code units. *)
Definition isSpace (c : jschar) : bool :=
  existsb (N.eqb c)
    [9; 10; 11; 12; 13; 32; 160; 5760; 8232; 8233; 8239; 8287; 12288; 65279]%N
  || (N.leb 8192 c && N.leb c 8202)%N.

Fixpoint dropWhile {A} (p : A -> bool) (l : list A) : list A :=
  match l with
  | [] => []
  | x :: l' => if p x then dropWhile p l' else l
  end.

Definition trimStart (s : jsstring) : jsstring := dropWhile isSpace s.
Definition trimEnd (s : jsstring) : jsstring := rev (dropWhile isSpace (rev s)).
Definition trim (s : jsstring) : jsstring := trimEnd (trimStart s).

Fixpoint startsWith (p s : jsstring) : bool :=
  match p, s with
  | [], _ => true
  | x :: p', y :: s' => N.eqb x y && startsWith p' s'
  | _ :: _, [] => false
  end.

(** [s.includes(k)] *)
Fixpoint includes (s k : jsstring) : bool :=
  startsWith k s ||
  match s with
  | [] => false
  | _ :: s' => includes s' k
  end.

(** [s.indexOf(c, from)] for a one-unit needle: the first position at or after
    [from], or -1. *)
Fixpoint indexOf_at (c : jschar) (s : jsstring) (i from : nat) : Z :=
  match s with
  | [] => (-1)%Z
  | x :: s' =>
      if (from <=? i)%nat && N.eqb x c then Z.of_nat i
      else indexOf_at c s' (S i) from
  end.

Definition indexOf (s : jsstring) (c : jschar) (from : nat) : Z :=
  indexOf_at c s 0 from.

(** [s.lastIndexOf(c, from)] : the last position at or before [from], or -1. *)
Fixpoint lastIndexOf_at (c : jschar) (s : jsstring) (i from : nat) (best : Z) : Z :=
  match s with
  | [] => best
  | x :: s' =>
      if (i <=? from)%nat
      then lastIndexOf_at c s' (S i) from (if N.eqb x c then Z.of_nat i else best)
      else best
  end.

Definition lastIndexOf (s : jsstring) (c : jschar) (from : nat) : Z :=
  lastIndexOf_at c s 0 from (-1)%Z.

(** [s.substring(a, b)], [b = None] for an absent end: both ends are clamped to
    the string and swapped when out of order. *)
Definition substring (s : jsstring) (a : Z) (b : option Z) : jsstring :=
  let len := Z.of_nat (List.length s) in
  let clamp z := Z.min (Z.max z 0) len in
  let a' := clamp a in
  let b' := match b with Some z => clamp z | None => len end in
  let lo := Z.to_nat (Z.min a' b') in
  let hi := Z.to_nat (Z.max a' b') in
  firstn (hi - lo) (skipn lo s).

(** [l.join(sep)] *)
Fixpoint join (sep : jsstring) (l : list jsstring) : jsstring :=
  match l with
  | [] => []
  | [x] => x
  | x :: l' => x ++ sep ++ join sep l'
  end.

End JsString.
Import JsString.

(** ** Regular expressions *)

Module RegExp.

(** The fragment of the pattern language the source uses.  Greedy quantifiers
    are built from [Star]; no pattern of the source puts a capture group under
    a quantifier, so captures are never reset. *)
Inductive regex :=
| Empty
| Chr (p : jschar -> bool)
| Seq (r1 r2 : regex)
| Alt (r1 r2 : regex)
| Star (r : regex)
| Group (i : nat) (r : regex).

Definition captures := list (nat * jsstring).

Fixpoint capture (i : nat) (c : captures) : option jsstring :=
  match c with
  | [] => None
  | (j, s) :: c' => if Nat.eqb i j then Some s else capture i c'
  end.

(** A matcher state: what is left of the input, and the captures so far. *)
Definition mstate := (jsstring * captures)%type.

(** Greedy iteration: another round of [step] first, as long as the round
    consumed input (an empty round is rejected, as RepeatMatcher does), then
    the exit. [n] bounds the rounds by the length of the input. *)
Fixpoint star_loop (step : jsstring -> captures -> list mstate)
    (n : nat) (s : jsstring) (c : captures) : list mstate :=
  match n with
  | O => [(s, c)]
  | S n' =>
      flat_map (fun st : mstate =>
                  if (List.length (fst st) <? List.length s)%nat
                  then star_loop step n' (fst st) (snd st)
                  else [])
               (step s c)
      ++ [(s, c)]
  end.

(** All the ways [r] matches a prefix of [s], in the order a backtracking
    matcher tries them: the head of the list is the match JavaScript reports. *)
Fixpoint rmatch (r : regex) (s : jsstring) (c : captures) : list mstate :=
  match r with
  | Empty => [(s, c)]
  | Chr p =>
      match s with
      | x :: s' => if p x then [(s', c)] else []
      | [] => []
      end
  | Seq r1 r2 =>
      flat_map (fun st : mstate => rmatch r2 (fst st) (snd st)) (rmatch r1 s c)
  | Alt r1 r2 => rmatch r1 s c ++ rmatch r2 s c
  | Star r1 => star_loop (rmatch r1) (List.length s) s c
  | Group i r1 =>
      map (fun st : mstate =>
             (fst st,
              (i, firstn (List.length s - List.length (fst st)) s) :: snd st))
          (rmatch r1 s c)
  end.

(** Derived forms. *)
Definition Plus (r : regex) : regex := Seq r (Star r).
Definition Opt (r : regex) : regex := Alt r Empty.

Fixpoint seqs (l : list regex) : regex :=
  match l with
  | [] => Empty
  | [r] => r
  | r :: l' => Seq r (seqs l')
  end.

(** [r{n}] *)
Fixpoint Times (n : nat) (r : regex) : regex :=
  match n with
  | O => Empty
  | S n' => Seq r (Times n' r)
  end.

(** [r{0,n}], greedy *)
Fixpoint UpTo (n : nat) (r : regex) : regex :=
  match n with
  | O => Empty
  | S n' => Opt (Seq r (UpTo n' r))
  end.

(** [r{lo,hi}] *)
Definition Range (lo hi : nat) (r : regex) : regex :=
  Seq (Times lo r) (UpTo (hi - lo) r).

(** Character matchers.  Under the [i] flag of a non-unicode pattern a literal
    ASCII letter matches its two cases and nothing else; digits, punctuation,
    [\d], [\w] and [\s] are unchanged by the flag. *)
Definition only (a : ascii) : regex := Chr (N.eqb (ch a)).

Definition toggleCase (c : jschar) : jschar :=
  if isUpper c then (c + 32)%N else if isLower c then (c - 32)%N else c.

Definition only_i (a : ascii) : regex :=
  Chr (fun x => N.eqb x (ch a) || N.eqb x (toggleCase (ch a))).

Definition lit (s : string) : regex := seqs (map only (list_ascii_of_string s)).
Definition lit_i (s : string) : regex := seqs (map only_i (list_ascii_of_string s)).

Definition d : regex := Chr isDigit.
Definition w : regex := Chr isWord.
Definition ws : regex := Chr isSpace.

Record MatchResult := {
  index : nat;           (* match.index *)
  matched : jsstring;    (* match[0] *)
  groups : captures;     (* match[1], match[2], ... *)
  after : jsstring       (* the input that follows the match *)
}.

(** [RegExp.prototype.exec] of a pattern without the [g] flag on the suffix [s]
    that starts at position [i]: the first position where the pattern
    matches, the end of the input included. *)
Fixpoint exec_at (r : regex) (i : nat) (s : jsstring) : option MatchResult :=
  match rmatch r s [] with
  | (s', c) :: _ =>
      Some {| index := i;
              matched := firstn (List.length s - List.length s') s;
              groups := c;
              after := s' |}
  | [] =>
      match s with
      | [] => None
      | _ :: t => exec_at r (S i) t
      end
  end.

(** [s.match(r)] *)
Definition exec (r : regex) (s : jsstring) : option MatchResult := exec_at r 0 s.

(** [r.test(s)] *)
Definition test (r : regex) (s : jsstring) : bool :=
  match exec r s with Some _ => true | None => false end.

(** [match[i]] *)
Definition group (i : nat) (m : MatchResult) : jsstring :=
  match capture i (groups m) with Some s => s | None => [] end.

(** [s.matchAll(r)] for a pattern with the [g] flag: the successive matches,
    each search resuming where the previous match ended, one unit further
    after an empty match. *)
Fixpoint matchAll_at (r : regex) (n i : nat) (s : jsstring) : list MatchResult :=
  match n with
  | O => []
  | S n' =>
      match exec_at r i s with
      | None => []
      | Some m =>
          let stop := (index m + List.length (matched m))%nat in
          m :: match matched m, after m with
               | [], [] => []
               | [], _ :: t => matchAll_at r n' (S stop) t
               | _ :: _, t => matchAll_at r n' stop t
               end
      end
  end.

Definition matchAll (r : regex) (s : jsstring) : list MatchResult :=
  matchAll_at r (S (List.length s)) 0 s.

(** [s.replace(r, '')] for a pattern without the [g] flag: the first match is
    cut out. *)
Definition removeFirst (r : regex) (s : jsstring) : jsstring :=
  match exec r s with
  | Some m => firstn (index m) s ++ after m
  | None => s
  end.

(** [s.replace(/,/g, '')] *)
Definition removeCommas (s : jsstring) : jsstring :=
  filter (fun x => negb (N.eqb x 44)) s.

End RegExp.
Import RegExp.

(** ** Numbers *)

Module Number.

Fixpoint takeWhile {A} (p : A -> bool) (l : list A) : list A :=
  match l with
  | [] => []
  | x :: l' => if p x then x :: takeWhile p l' else []
  end.

(** The value of a string of decimal digits. *)
Fixpoint digitsValue (acc : N) (s : jsstring) : N :=
  match s with
  | [] => acc
  | x :: s' => digitsValue (10 * acc + (x - 48))%N s'
  end.

Definition exact (m : N) : spec_float :=
  match m with
  | N0 => S754_zero false
  | Npos p => S754_finite false p 0
  end.

(** The binary64 value nearest to [m * 10^e], ties to even. *)
Definition decimal (m : N) (e : Z) : float :=
  match e with
  | Zneg k => SF2Prim (SFdiv prec emax (exact m) (exact (10 ^ Npos k)))
  | _ => SF2Prim (SFdiv prec emax (exact (m * 10 ^ Z.to_N e)) (exact 1))
  end.

Definition ofN (m : N) : float := decimal m 0.

Definition signOf (s : jsstring) : bool * jsstring :=
  match s with
  | 43%N :: s' => (false, s')
  | 45%N :: s' => (true, s')
  | _ => (false, s)
  end.

Definition withSign (neg : bool) (v : float) : float :=
  if neg then PrimFloat.opp v else v.

(** The exponent part [e[+-]digits] at the head of [s], 0 when there is none. *)
Definition exponentPart (s : jsstring) : Z :=
  match s with
  | c :: s' =>
      if N.eqb c 101 || N.eqb c 69 then
        let (neg, s1) := signOf s' in
        match takeWhile isDigit s1 with
        | [] => 0%Z
        | ds => let v := Z.of_N (digitsValue 0 ds) in if neg then Z.opp v else v
        end
      else 0%Z
  | [] => 0%Z
  end.

(** [parseFloat(s)] : leading white space is skipped, then the longest prefix
    that is a decimal literal is read; NaN when there is none. *)
Definition parseFloat (s : jsstring) : float :=
  let (neg, s1) := signOf (trimStart s) in
  if startsWith (js "Infinity") s1 then withSign neg infinity else
  let ip := takeWhile isDigit s1 in
  let r1 := skipn (List.length ip) s1 in
  let fp := match r1 with
            | 46%N :: r => takeWhile isDigit r
            | _ => []
            end in
  let r2 := match r1 with
            | 46%N :: r => skipn (List.length fp) r
            | _ => r1
            end in
  match ip ++ fp with
  | [] => nan
  | ds =>
      withSign neg
        (decimal (digitsValue 0 ds) (exponentPart r2 - Z.of_nat (List.length fp)))
  end.

(** [parseInt(s, 10)] *)
Definition parseInt (s : jsstring) : float :=
  let (neg, s1) := signOf (trimStart s) in
  match takeWhile isDigit s1 with
  | [] => nan
  | ds => withSign neg (ofN (digitsValue 0 ds))
  end.

(** The decimal digits of a natural number. *)
Definition digitsOf (n : N) : jsstring := js (NilZero.string_of_uint (N.to_uint n)).

(** A finite [x] is [num / den], exactly. *)
Definition ratio (x : float) : N * N :=
  match Prim2SF x with
  | S754_finite _ m e =>
      match e with
      | Zneg k => (Npos m, 2 ^ Npos k)%N
      | _ => (Npos m * 2 ^ Z.to_N e, 1)%N
      end
  | _ => (0, 1)%N
  end.

(** [num / den < 10^n] *)
Definition below (num den : N) (n : Z) : bool :=
  match n with
  | Zneg k => (num * 10 ^ Npos k <? den)%N
  | _ => (num <? den * 10 ^ Z.to_N n)%N
  end.

(** The least [n], from the one given, with [num / den < 10^n]. *)
Fixpoint magnitude (fuel : nat) (num den : N) (n : Z) : Z :=
  match fuel with
  | O => n
  | S f => if below num den n then n else magnitude f num den (n + 1)
  end.

(** [(num / den) * 10^p] as a fraction. *)
Definition scaled (num den : N) (p : Z) : N * N :=
  match p with
  | Zneg k => (num, den * 10 ^ Npos k)%N
  | _ => (num * 10 ^ Z.to_N p, den)%N
  end.

(** The [k]-digit integer [s], with its exponent [n], for which [s * 10^(n-k)]
    rounds to [x]: one of the two neighbours of [x * 10^(k-n)], the nearer
    one when both do, the even one on a tie. *)
Definition candidate (x : float) (num den : N) (n : Z) (k : nat)
  : option (N * Z) :=
  let (a, b) := scaled num den (Z.of_nat k - n) in
  let lo := (a / b)%N in
  let hi := (lo + 1)%N in
  let top := (10 ^ N.of_nat k)%N in
  let up := if (hi <? top)%N then (hi, n) else ((top / 10)%N, (n + 1)%Z) in
  let ok (c : N * Z) :=
    (top / 10 <=? fst c)%N
    && PrimFloat.eqb (decimal (fst c) (snd c - Z.of_nat k)) x in
  match ok (lo, n), ok up with
  | true, false => Some (lo, n)
  | false, true => Some up
  | true, true =>
      match (2 * (a mod b) ?= b)%N with
      | Lt => Some (lo, n)
      | Gt => Some up
      | Eq => Some (if N.even lo then (lo, n) else up)
      end
  | false, false => None
  end.

(** The fewest digits that denote [x]. *)
Fixpoint shortest (fuel : nat) (x : float) (num den : N) (n : Z) (k : nat)
  : N * Z * nat :=
  match fuel with
  | O => (0%N, n, k)
  | S f =>
      match candidate x num den n k with
      | Some c => (c, k)
      | None => shortest f x num den n (S k)
      end
  end.

Definition zeros (k : nat) : jsstring := repeat 48%N k.

(** The digits laid out as Number::toString does: plain up to 21 integer
    digits and down to 6 leading zeros, exponential beyond. *)
Definition format (s : N) (k : nat) (n : Z) : jsstring :=
  let ds := digitsOf s in
  if (Z.of_nat k <=? n)%Z && (n <=? 21)%Z then ds ++ zeros (Z.to_nat n - k)
  else if (0 <? n)%Z && (n <=? 21)%Z then
    firstn (Z.to_nat n) ds ++ 46%N :: skipn (Z.to_nat n) ds
  else if (-6 <? n)%Z && (n <=? 0)%Z then
    js "0." ++ zeros (Z.to_nat (- n)) ++ ds
  else
    let e := (n - 1)%Z in
    let es := (if (e <? 0)%Z then 45%N else 43%N) :: digitsOf (Z.to_N (Z.abs e)) in
    match ds with
    | [c] => c :: 101%N :: es
    | c :: r => c :: 46%N :: r ++ 101%N :: es
    | [] => []
    end.

(** [Number.prototype.toString] in radix 10, which a template literal applies
    to a number. *)
Definition toString (x : float) : jsstring :=
  if PrimFloat.is_nan x then js "NaN"
  else if PrimFloat.is_zero x then js "0"
  else
    let neg := PrimFloat.ltb x 0 in
    let ax := PrimFloat.abs x in
    let body :=
      if PrimFloat.is_infinity ax then js "Infinity"
      else
        let (num, den) := ratio ax in
        let n := magnitude 700 num den (-330) in
        let '(s, n', k) := shortest 17 ax num den n 1 in
        format s k n' in
    if neg then 45%N :: body else body.

End Number.
Import Number.

(** ** parseQuoteText *)

Module QuoteText.

(** A calendar date, as a [Date] object denotes one. *)
Record JSDate := { year : Z; month : Z; day : Z }.

(** One extracted line item. *)
Record Item := {
  widthInches : float;
  heightInches : float;
  description : jsstring;
  quantity : float;
  unitPrice : float;
  totalPrice : float;
  confidenceScore : float
}.

Record ParsedQuote := {
  quoteNumber : jsstring;
  quoteDate : option JSDate;     (* None is null *)
  totalAmount : float;
  items : list Item
}.

(** The patterns of the source, in the order they appear. *)

(** [\w+[-]?\d+] *)
Definition token : regex := seqs [Plus w; Opt (only "-"); Plus d].

(** [/Quote\s*#?\s*(\w+[-]?\d+)/i] *)
Definition re_quote : regex :=
  seqs [lit_i "Quote"; Star ws; Opt (only "#"); Star ws; Group 1 token].

(** [/Quote\s*Number\s*:?\s*(\w+[-]?\d+)/i] *)
Definition re_quoteNumber : regex :=
  seqs [lit_i "Quote"; Star ws; lit_i "Number"; Star ws; Opt (only ":"); Star ws;
        Group 1 token].

(** [/Estimate\s*#?\s*(\w+[-]?\d+)/i] *)
Definition re_estimate : regex :=
  seqs [lit_i "Estimate"; Star ws; Opt (only "#"); Star ws; Group 1 token].

(** [[\/\-\.]] *)
Definition dateSep : regex :=
  Chr (fun c => N.eqb c 47 || N.eqb c 45 || N.eqb c 46).

(** [\d{1,2}[\/\-\.]\d{1,2}[\/\-\.]\d{2,4}] *)
Definition dateToken : regex :=
  seqs [Range 1 2 d; dateSep; Range 1 2 d; dateSep; Range 2 4 d].

(** [/Date\s*:?\s*(\d{1,2}[\/\-\.]\d{1,2}[\/\-\.]\d{2,4})/i] *)
Definition re_dateLabel : regex :=
  seqs [lit_i "Date"; Star ws; Opt (only ":"); Star ws; Group 1 dateToken].

(** [/(\d{1,2}[\/\-\.]\d{1,2}[\/\-\.]\d{2,4})/] *)
Definition re_dateBare : regex := Group 1 dateToken.

(** [[\d,]+\.\d{2}] *)
Definition amount : regex :=
  seqs [Plus (Chr (fun c => isDigit c || N.eqb c 44)); only "."; Times 2 d].

(** [\s*:?\s*\$?\s*([\d,]+\.\d{2})] *)
Definition labelledAmount : regex :=
  seqs [Star ws; Opt (only ":"); Star ws; Opt (only "$"); Star ws; Group 1 amount].

(** [/Total\s*:?\s*\$?\s*([\d,]+\.\d{2})/i] *)
Definition re_total : regex := Seq (lit_i "Total") labelledAmount.

(** [/Grand\s*Total\s*:?\s*\$?\s*([\d,]+\.\d{2})/i] *)
Definition re_grandTotal : regex :=
  seqs [lit_i "Grand"; Star ws; lit_i "Total"; labelledAmount].

(** [/Amount\s*Due\s*:?\s*\$?\s*([\d,]+\.\d{2})/i] *)
Definition re_amountDue : regex :=
  seqs [lit_i "Amount"; Star ws; lit_i "Due"; labelledAmount].

(** [\d+(?:\.\d+)?] *)
Definition number : regex := Seq (Plus d) (Opt (Seq (only ".") (Plus d))).

(** [/(\d+(?:\.\d+)?)\s*(?:x|×)\s*(\d+(?:\.\d+)?)/gi] *)
Definition re_dimensions : regex :=
  seqs [Group 1 number; Star ws; Alt (only_i "x") (Chr (N.eqb times_sign)); Star ws;
        Group 2 number].

(** [/\$\s*([\d,]+\.\d{2})/] *)
Definition re_price : regex := seqs [only "$"; Star ws; Group 1 amount].

(** [/qty\s*:?\s*(\d+)/i] and [/quantity\s*:?\s*(\d+)/i] *)
Definition re_qty : regex :=
  seqs [lit_i "qty"; Star ws; Opt (only ":"); Star ws; Group 1 (Plus d)].
Definition re_quantity : regex :=
  seqs [lit_i "quantity"; Star ws; Opt (only ":"); Star ws; Group 1 (Plus d)].

(** The patterns the description is cleaned with: [/\$\s*[\d,]+\.\d{2}/],
    [/qty\s*:?\s*\d+/i], [/quantity\s*:?\s*\d+/i] and, without the [i] flag,
    [/\d+(?:\.\d+)?\s*(?:x|×)\s*\d+(?:\.\d+)?/]. *)
Definition cut_price : regex := seqs [only "$"; Star ws; amount].
Definition cut_qty : regex :=
  seqs [lit_i "qty"; Star ws; Opt (only ":"); Star ws; Plus d].
Definition cut_quantity : regex :=
  seqs [lit_i "quantity"; Star ws; Opt (only ":"); Star ws; Plus d].
Definition cut_dimensions : regex :=
  seqs [number; Star ws; Alt (only "x") (Chr (N.eqb times_sign)); Star ws; number].

(** [a || b] on match results *)
Definition orElse {A} (a b : option A) : option A :=
  match a with Some _ => a | None => b end.

Section Parser.

(** The host's [new Date(string)], [None] for an invalid date (the reading of
    a string that is not in the ISO format is left to the engine), and its
    conversion of a number to a string in a template literal. *)
Variable Date_parse : jsstring -> option JSDate.
Variable Number_toString : float -> jsstring.

(** The body of the loop over the dimension matches: the item extracted at
    one match, when its dimensions are positive. *)
Definition extractItem (text : jsstring) (m : MatchResult) : option Item :=
  let width := parseFloat (group 1 m) in
  let height := parseFloat (group 2 m) in
  let lineStart := Z.max 0 (lastIndexOf text nl (index m)) in
  let lineEnd := indexOf text nl (index m) in
  let line := substring text lineStart
                (if (-1 <? lineEnd)%Z then Some lineEnd else None) in
  let price := match exec re_price line with
               | Some pm => parseFloat (removeCommas (group 1 pm))
               | None => 0%float
               end in
  let quantity := match orElse (exec re_qty line) (exec re_quantity line) with
                  | Some qm => parseInt (group 1 qm)
                  | None => 1%float
                  end in
  let description := trim (removeFirst cut_price line) in
  let description := trim (removeFirst cut_qty description) in
  let description := trim (removeFirst cut_quantity description) in
  let description := trim (removeFirst cut_dimensions description) in
  let description :=
    match description with
    | [] => Number_toString width ++ [34; 32; times_sign; 32]%N
            ++ Number_toString height ++ 34%N :: js " Window"
    | _ => description
    end in
  if PrimFloat.ltb 0 width && PrimFloat.ltb 0 height then
    Some {| widthInches := width;
            heightInches := height;
            description := description;
            quantity := quantity;
            unitPrice := PrimFloat.div price quantity;
            totalPrice := price;
            confidenceScore := 0.8%float |}
  else None.

Fixpoint extractItems (text : jsstring) (ms : list MatchResult) : list Item :=
  match ms with
  | [] => []
  | m :: ms' =>
      match extractItem text m with
      | Some it => it :: extractItems text ms'
      | None => extractItems text ms'
      end
  end.

(** [parseQuoteText(text, competitorName)].  The competitor name is not read.
    No step of the body raises on a string, so the [catch] branch, which
    returns the same defaults the body starts from, is never taken. *)
Definition parseQuoteText (text : jsstring) : ParsedQuote :=
  let quoteNumberMatch :=
    orElse (exec re_quote text)
      (orElse (exec re_quoteNumber text) (exec re_estimate text)) in
  let quoteNumber := match quoteNumberMatch with
                     | Some m => group 1 m
                     | None => []
                     end in
  let dateMatch := orElse (exec re_dateLabel text) (exec re_dateBare text) in
  let quoteDate := match dateMatch with
                   | Some m => Date_parse (group 1 m)
                   | None => None
                   end in
  let totalMatch :=
    orElse (exec re_total text)
      (orElse (exec re_grandTotal text) (exec re_amountDue text)) in
  let totalAmount := match totalMatch with
                     | Some m => parseFloat (removeCommas (group 1 m))
                     | None => 0%float
                     end in
  {| quoteNumber := quoteNumber;
     quoteDate := quoteDate;
     totalAmount := totalAmount;
     items := extractItems text (matchAll re_dimensions text) |}.

End Parser.

(** A reading of numeric month/day/year tokens, the one engines give to
    [new Date("03/15/2024")]: a four-digit year, a month from 1 to 12 and a
    day from 1 to 31, with one separator throughout. *)
Definition splitOn (p : jschar -> bool) (s : jsstring) : jsstring * jsstring :=
  (takeWhile (fun c => negb (p c)) s,
   tl (dropWhile (fun c => negb (p c)) s)).

Definition Date_parse_mdy (s : jsstring) : option JSDate :=
  let sep c := N.eqb c 47 || N.eqb c 45 || N.eqb c 46 in
  let (m, r) := splitOn sep s in
  let (dd, y) := splitOn sep r in
  let mv := Z.of_N (digitsValue 0 m) in
  let dv := Z.of_N (digitsValue 0 dd) in
  let yv := Z.of_N (digitsValue 0 y) in
  if forallb isDigit (m ++ dd ++ y)
     && (1 <=? mv)%Z && (mv <=? 12)%Z && (1 <=? dv)%Z && (dv <=? 31)%Z
     && Nat.eqb (List.length y) 4
  then Some {| year := yv; month := mv; day := dv |}
  else None.

End QuoteText.

(** ** The document store and its records *)

(** Identifiers ([generateId()], [quoteId], [itemId], ...) are abstracted to
    numbers.  Time stamps and the uploaded file's metadata, which no property
    below reads, are left out of the records. *)
Definition Id := nat.

Module Quote.
Record t := {
  quoteId : Id;
  projectId : Id;
  competitorName : jsstring;
  extractionStatus : string;
  quoteNumber : jsstring;
  quoteDate : option QuoteText.JSDate;
  totalAmount : float;
  itemsCount : nat
}.
Definition with_totalAmount (q : t) (v : float) : t :=
  {| quoteId := quoteId q; projectId := projectId q;
     competitorName := competitorName q;
     extractionStatus := extractionStatus q; quoteNumber := quoteNumber q;
     quoteDate := quoteDate q; totalAmount := v; itemsCount := itemsCount q |}.
End Quote.

Module QuoteItem.
Record t := {
  itemId : Id;
  quoteId : Id;
  widthInches : float;
  heightInches : float;
  description : jsstring;
  quantity : float;
  unitPrice : float;
  totalPrice : float;
  confidenceScore : float
}.
End QuoteItem.

Module Product.
Record t := {
  productId : Id;
  productName : jsstring;
  description : jsstring;
  materialType : jsstring;
  basePrice : float;
  confidence : float
}.
End Product.

Module Comparison.
Record t := {
  comparisonId : Id;
  projectId : Id;
  quoteId : Id;
  competitorName : jsstring;
  totalCompetitorPrice : float;
  totalWarnkePrice : float;
  savingsAmount : float;
  savingsPercentage : float;
  status : string
}.
End Comparison.

Module ComparisonItem.
Record t := {
  comparisonItemId : Id;
  comparisonId : Id;
  quoteItemId : Id;
  competitorProductDescription : jsstring;
  competitorOptions : jsstring;
  competitorPrice : float;
  warnkeProductId : Id;
  warnkeProductName : jsstring;
  warnkeProductDescription : jsstring;
  warnkeOptions : jsstring;
  warnkePrice : float;
  width : float;
  height : float;
  quantity : float;
  savingsAmount : float;
  savingsPercentage : float;
  matchConfidence : float
}.
End ComparisonItem.

(** ** Effects: the store, the console and exceptions *)

Module Effects.

Inductive exn :=
| TypeError                (* a property read on null or undefined *)
| StoreFailure             (* a store call that rejects *)
| Error (message : string).

Inductive result (A : Type) :=
| Ok (a : A)
| Err (e : exn).
Arguments Ok {A} a.
Arguments Err {A} e.

(** The collections, in insertion order; [faults] tells, call after call,
    whether the next store call rejects (none left: it succeeds); [nextId]
    feeds [generateId]; [console] collects what [console.error] prints. *)
Record World := {
  quotes : list Quote.t;
  quoteItems : list QuoteItem.t;
  products : list Product.t;
  comparisons : list Comparison.t;
  comparisonItems : list ComparisonItem.t;
  faults : list bool;
  nextId : Id;
  console : list string
}.

Definition M (A : Type) : Type := World -> result A * World.

Definition ret {A} (a : A) : M A := fun w => (Ok a, w).

Definition bind {A B} (m : M A) (f : A -> M B) : M B :=
  fun w => match m w with
           | (Ok a, w') => f a w'
           | (Err e, w') => (Err e, w')
           end.

Definition raise {A} (e : exn) : M A := fun w => (Err e, w).

(** [try { m } catch (error) { h error }] *)
Definition try_catch {A} (m : M A) (h : exn -> M A) : M A :=
  fun w => match m w with
           | (Ok a, w') => (Ok a, w')
           | (Err e, w') => h e w'
           end.

(** The settled outcome of a promise, as [Promise.all] waits for it. *)
Definition settle {A} (m : M A) : M (result A) :=
  fun w => let (r, w') := m w in (Ok r, w').

Definition of_result {A} (r : result A) : M A :=
  match r with Ok a => ret a | Err e => raise e end.

(** A property read on a value that may be null or undefined. *)
Definition deref {A} (o : option A) : M A :=
  match o with Some a => ret a | None => raise TypeError end.

Definition set_quotes (l : list Quote.t) (w : World) : World :=
  {| quotes := l; quoteItems := quoteItems w; products := products w;
     comparisons := comparisons w; comparisonItems := comparisonItems w;
     faults := faults w; nextId := nextId w; console := console w |}.
Definition set_quoteItems (l : list QuoteItem.t) (w : World) : World :=
  {| quotes := quotes w; quoteItems := l; products := products w;
     comparisons := comparisons w; comparisonItems := comparisonItems w;
     faults := faults w; nextId := nextId w; console := console w |}.
Definition set_comparisons (l : list Comparison.t) (w : World) : World :=
  {| quotes := quotes w; quoteItems := quoteItems w; products := products w;
     comparisons := l; comparisonItems := comparisonItems w;
     faults := faults w; nextId := nextId w; console := console w |}.
Definition set_comparisonItems (l : list ComparisonItem.t) (w : World) : World :=
  {| quotes := quotes w; quoteItems := quoteItems w; products := products w;
     comparisons := comparisons w; comparisonItems := l;
     faults := faults w; nextId := nextId w; console := console w |}.
Definition set_faults (l : list bool) (w : World) : World :=
  {| quotes := quotes w; quoteItems := quoteItems w; products := products w;
     comparisons := comparisons w; comparisonItems := comparisonItems w;
     faults := l; nextId := nextId w; console := console w |}.
Definition set_nextId (n : Id) (w : World) : World :=
  {| quotes := quotes w; quoteItems := quoteItems w; products := products w;
     comparisons := comparisons w; comparisonItems := comparisonItems w;
     faults := faults w; nextId := n; console := console w |}.
Definition set_console (l : list string) (w : World) : World :=
  {| quotes := quotes w; quoteItems := quoteItems w; products := products w;
     comparisons := comparisons w; comparisonItems := comparisonItems w;
     faults := faults w; nextId := nextId w; console := l |}.

Definition get {A} (f : World -> A) : M A := fun w => (Ok (f w), w).
Definition modify (f : World -> World) : M unit := fun w => (Ok tt, f w).

(** [console.error(message, error)] *)
Definition console_error (message : string) : M unit :=
  modify (fun w => set_console (console w ++ [message]) w).

(** [generateId()] *)
Definition generateId : M Id :=
  fun w => (Ok (nextId w), set_nextId (S (nextId w)) w).

(** Every store call first learns whether it rejects. *)
Definition storeCall : M unit :=
  fun w => match faults w with
           | true :: f => (Err StoreFailure, set_faults f w)
           | false :: f => (Ok tt, set_faults f w)
           | [] => (Ok tt, w)
           end.

End Effects.
Import Effects.

Declare Scope monad_scope.
Delimit Scope monad_scope with monad.
Notation "x <- m ;; k" := (bind m (fun x => k))
  (at level 61, m at next level, right associativity) : monad_scope.
Notation "m ;;; k" := (bind m (fun _ => k))
  (at level 61, right associativity) : monad_scope.
Open Scope monad_scope.

Module Store.

(** Replace, in place, the first document that [same] recognises. *)
Fixpoint replace {A} (same : A -> bool) (doc : A) (l : list A) : option (list A) :=
  match l with
  | [] => None
  | x :: l' =>
      if same x then Some (doc :: l')
      else match replace same doc l' with
           | Some r => Some (x :: r)
           | None => None
           end
  end.

(** [getDocument(QUOTES_COLLECTION, id)], [None] for no such document. *)
Definition getDocument_QUOTES (id : Id) : M (option Quote.t) :=
  storeCall ;;;
  get (fun w => find (fun q => Nat.eqb (Quote.quoteId q) id) (quotes w)).

(** [getDocument(QUOTE_ITEMS_COLLECTION, id)] *)
Definition getDocument_QUOTE_ITEMS (id : Id) : M (option QuoteItem.t) :=
  storeCall ;;;
  get (fun w => find (fun i => Nat.eqb (QuoteItem.itemId i) id) (quoteItems w)).

(** [queryDocuments(QUOTE_ITEMS_COLLECTION).eq('quoteId', id).find()] *)
Definition query_QUOTE_ITEMS (id : Id) : M (list QuoteItem.t) :=
  storeCall ;;;
  get (fun w => filter (fun i => Nat.eqb (QuoteItem.quoteId i) id) (quoteItems w)).

(** [createDocument(COMPARISONS_COLLECTION, doc)] : the stored document is
    returned. *)
Definition createDocument_COMPARISONS (doc : Comparison.t) : M Comparison.t :=
  storeCall ;;;
  modify (fun w => set_comparisons (comparisons w ++ [doc]) w) ;;;
  ret doc.

(** [createDocument(COMPARISON_ITEMS_COLLECTION, doc)] *)
Definition createDocument_COMPARISON_ITEMS (doc : ComparisonItem.t)
  : M ComparisonItem.t :=
  storeCall ;;;
  modify (fun w => set_comparisonItems (comparisonItems w ++ [doc]) w) ;;;
  ret doc.

(** [updateDocument(collection, doc)] : the document with the identifier of
    [doc] is replaced; the call rejects when there is none. *)
Definition updateDocument_COMPARISONS (doc : Comparison.t) : M Comparison.t :=
  storeCall ;;;
  l <- get comparisons ;;
  match replace (fun c => Nat.eqb (Comparison.comparisonId c)
                            (Comparison.comparisonId doc)) doc l with
  | Some l' => modify (set_comparisons l') ;;; ret doc
  | None => raise StoreFailure
  end.

Definition updateDocument_QUOTE_ITEMS (doc : QuoteItem.t) : M QuoteItem.t :=
  storeCall ;;;
  l <- get quoteItems ;;
  match replace (fun i => Nat.eqb (QuoteItem.itemId i) (QuoteItem.itemId doc))
          doc l with
  | Some l' => modify (set_quoteItems l') ;;; ret doc
  | None => raise StoreFailure
  end.

Definition updateDocument_QUOTES (doc : Quote.t) : M Quote.t :=
  storeCall ;;;
  l <- get quotes ;;
  match replace (fun q => Nat.eqb (Quote.quoteId q) (Quote.quoteId doc)) doc l with
  | Some l' => modify (set_quotes l') ;;; ret doc
  | None => raise StoreFailure
  end.

End Store.
Import Store.

(** ** The quote manager *)

Module QuoteManager.

(** [getQuoteDetails(quoteId)] *)
Definition getQuoteDetails (quoteId : Id) : M Quote.t :=
  try_catch
    (quote <- getDocument_QUOTES quoteId ;;
     match quote with
     | None => raise (Error "Quote not found")
     | Some q => ret q
     end)
    (fun _ =>
       console_error "Failed to get quote details:" ;;;
       raise (Error "Failed to get quote details. Please try again.")).

(** [getQuoteItems(quoteId)] *)
Definition getQuoteItems (quoteId : Id) : M (list QuoteItem.t) :=
  try_catch
    (query_QUOTE_ITEMS quoteId)
    (fun _ =>
       console_error "Failed to get quote items:" ;;;
       raise (Error "Failed to get quote items. Please try again.")).

(** [items.reduce((total, item) => total + item.totalPrice, 0)] *)
Definition sumTotalPrice (items : list QuoteItem.t) : float :=
  fold_left (fun total item => PrimFloat.add total (QuoteItem.totalPrice item))
    items 0%float.

(** [updateQuoteTotalAmount(quoteId)] : a failure is printed and dropped. *)
Definition updateQuoteTotalAmount (quoteId : Id) : M unit :=
  try_catch
    (items <- getQuoteItems quoteId ;;
     let totalAmount := sumTotalPrice items in
     quote <- getDocument_QUOTES quoteId ;;
     match quote with
     | Some q =>
         updateDocument_QUOTES (Quote.with_totalAmount q totalAmount) ;;; ret tt
     | None => ret tt
     end)
    (fun _ => console_error "Failed to update quote total amount:").

(** The [(field, value)] pairs the verification form sends. *)
Inductive Edit :=
| quantity (value : float)
| description (value : jsstring)
| widthInches (value : float)
| heightInches (value : float)
| unitPrice (value : float)
| totalPrice (value : float).

(** [{...item, [field]: value}] *)
Definition assign (item : QuoteItem.t) (e : Edit) : QuoteItem.t :=
  let '{| QuoteItem.itemId := i; QuoteItem.quoteId := q;
          QuoteItem.widthInches := wd; QuoteItem.heightInches := ht;
          QuoteItem.description := ds; QuoteItem.quantity := qt;
          QuoteItem.unitPrice := up; QuoteItem.totalPrice := tp;
          QuoteItem.confidenceScore := cs |} := item in
  match e with
  | quantity v => QuoteItem.Build_t i q wd ht ds v up tp cs
  | description v => QuoteItem.Build_t i q wd ht v qt up tp cs
  | widthInches v => QuoteItem.Build_t i q v ht ds qt up tp cs
  | heightInches v => QuoteItem.Build_t i q wd v ds qt up tp cs
  | unitPrice v => QuoteItem.Build_t i q wd ht ds qt v tp cs
  | totalPrice v => QuoteItem.Build_t i q wd ht ds qt up v cs
  end.

Definition set_totalPrice (item : QuoteItem.t) (v : float) : QuoteItem.t :=
  assign item (totalPrice v).
Definition set_unitPrice (item : QuoteItem.t) (v : float) : QuoteItem.t :=
  assign item (unitPrice v).

(** The item [updateQuoteItem] writes back: the field is assigned, then the
    dependent price is recomputed. *)
Definition updatedItem (item : QuoteItem.t) (e : Edit) : QuoteItem.t :=
  let u := assign item e in
  match e with
  | widthInches _ | heightInches _ | quantity _ | unitPrice _ =>
      set_totalPrice u
        (PrimFloat.mul (QuoteItem.unitPrice u) (QuoteItem.quantity u))
  | totalPrice value =>
      set_unitPrice u (PrimFloat.div value (QuoteItem.quantity u))
  | description _ => u
  end.

(** [updateQuoteItem(itemId, field, value)] *)
Definition updateQuoteItem (itemId : Id) (e : Edit) : M QuoteItem.t :=
  try_catch
    (item <- getDocument_QUOTE_ITEMS itemId ;;
     match item with
     | None => raise (Error "Quote item not found")
     | Some item =>
         result <- updateDocument_QUOTE_ITEMS (updatedItem item e) ;;
         updateQuoteTotalAmount (QuoteItem.quoteId item) ;;;
         ret result
     end)
    (fun _ =>
       console_error "Failed to update quote item:" ;;;
       raise (Error "Failed to update quote item. Please try again.")).

End QuoteManager.

(** ** The comparison manager *)

Module ComparisonManager.

Module Options.
Record t := { windowType : jsstring; material : jsstring; glassType : jsstring }.
End Options.

Module Measurements.
Record t := { width : float; height : float; quantity : float }.
End Measurements.

(** What [calculatePrice] resolves to. *)
Module Calculation.
Record t := {
  totalPrice : float;
  pricePerWindow : float;
  basePrice : float;
  optionsPrice : float
}.
End Calculation.

(** What [calculateWarnkePrice] resolves to. *)
Module PriceResult.
Record t := {
  totalPrice : float;
  pricePerWindow : float;
  basePrice : float;
  optionsPrice : float;
  options : Options.t
}.
End PriceResult.

Fixpoint alts (l : list regex) : regex :=
  match l with
  | [] => Empty
  | [r] => r
  | r :: l' => Alt r (alts l')
  end.

(** The patterns of [extractOptions], all with the [i] flag. *)
Definition re_lowE : regex := alts [lit_i "low-e"; lit_i "low e"; lit_i "lowe"].
Definition re_argon : regex := alts [lit_i "argon"; lit_i "gas filled"].
Definition re_energyStar : regex := alts [lit_i "energy star"; lit_i "energystar"].
Definition re_tempered : regex := alts [lit_i "tempered"; lit_i "safety glass"].
Definition re_grids : regex := alts [lit_i "grids"; lit_i "grilles"; lit_i "muntins"].
Definition re_screens : regex := lit_i "screens".
Definition re_tilt : regex := alts [lit_i "tilt"; lit_i "washable"].

(** [if (re.test(description)) { options.push(label); }] *)
Definition pushIf (re : regex) (label : string) (description : jsstring)
    (options : list jsstring) : list jsstring :=
  if test re description then options ++ [js label] else options.

(** The array [options] that [extractOptions] has built when it returns. *)
Definition extractOptions_options (description : jsstring) : list jsstring :=
  let options := [] in
  let options := pushIf re_lowE "Low-E Glass" description options in
  let options := pushIf re_argon "Argon Gas" description options in
  let options := pushIf re_energyStar "ENERGY STAR" description options in
  let options := pushIf re_tempered "Tempered Glass" description options in
  let options := pushIf re_grids "Grids" description options in
  let options := pushIf re_screens "Screens" description options in
  let options := pushIf re_tilt "Tilt Feature" description options in
  options.

(** [extractOptions(description)] : [options.join(', ')] *)
Definition extractOptions (description : jsstring) : jsstring :=
  join (js ", ") (extractOptions_options description).

(** [formatGlassType(glassType)] *)
Definition formatGlassType (glassType : jsstring) : jsstring :=
  if eqs glassType (js "single-pane") then js "Single Pane Glass"
  else if eqs glassType (js "double-pane") then js "Double Pane Glass"
  else if eqs glassType (js "triple-pane") then js "Triple Pane Glass"
  else js "Double Pane Glass".

(** What the module takes from outside: [String.prototype.toLowerCase] and
    [toUpperCase] of the host; the product matcher of [./productManager],
    whose code is not among the sources at hand, which returns a product, or
    nothing (null or undefined), or raises; and the pricing engine
    [calculatePrice], taken by its contract: it resolves to a price breakdown
    or rejects. *)
Module Env.
Record t := {
  toLowerCase : jsstring -> jsstring;
  toUpperCase : jsstring -> jsstring;
  matchProduct : QuoteItem.t -> list Product.t -> result (option Product.t);
  calculatePrice : Measurements.t -> Options.t -> result Calculation.t
}.
End Env.

Section Host.

Variable env : Env.t.

Local Abbreviation toLowerCase := (Env.toLowerCase env).
Local Abbreviation toUpperCase := (Env.toUpperCase env).
Local Abbreviation matchProduct := (Env.matchProduct env).
Local Abbreviation calculatePrice := (Env.calculatePrice env).

(** [mapWindowType(productName)] *)
Definition mapWindowType (productName : jsstring) : jsstring :=
  let name := toLowerCase productName in
  if includes name (js "double-hung") || includes name (js "double hung")
  then js "double-hung"
  else if includes name (js "casement") then js "casement"
  else if includes name (js "awning") then js "awning"
  else if includes name (js "slider") || includes name (js "sliding")
  then js "slider"
  else if includes name (js "picture") || includes name (js "fixed")
  then js "picture"
  else if includes name (js "bay") then js "bay"
  else if includes name (js "bow") then js "bow"
  else if includes name (js "garden") then js "garden"
  else js "double-hung".

(** [mapMaterial(materialType)] *)
Definition mapMaterial (materialType : jsstring) : jsstring :=
  let material := toLowerCase materialType in
  if includes material (js "vinyl") then js "vinyl"
  else if includes material (js "fiberglass") then js "fiberglass"
  else if includes material (js "wood") then js "wood"
  else if includes material (js "aluminum") then js "aluminum"
  else if includes material (js "composite") then js "composite"
  else js "vinyl".

(** [mapGlassType(description)] *)
Definition mapGlassType (description : jsstring) : jsstring :=
  let desc := toLowerCase description in
  if includes desc (js "triple") || includes desc (js "3-pane")
     || includes desc (js "3 pane")
  then js "triple-pane"
  else if includes desc (js "single") || includes desc (js "1-pane")
          || includes desc (js "1 pane")
  then js "single-pane"
  else js "double-pane".

(** [formatOptions(options)] : an empty string is falsy. *)
Definition formatOptions (options : Options.t) : jsstring :=
  let formattedOptions := [] in
  let formattedOptions :=
    match Options.material options with
    | [] => formattedOptions
    | c :: slice1 =>
        formattedOptions ++ [toUpperCase [c] ++ slice1 ++ js " Frame"]
    end in
  let formattedOptions :=
    match Options.glassType options with
    | [] => formattedOptions
    | g => formattedOptions ++ [formatGlassType g]
    end in
  join (js ", ") formattedOptions.

(** Modelled from the spec: [getProducts()] of [./productManager], whose code
    is not among the sources at hand, reads the full catalog from the store. *)
Definition getProducts : M (list Product.t) :=
  storeCall ;;; get products.

(** [calculateWarnkePrice(quoteItem, matchedProduct)] *)
Definition calculateWarnkePrice (quoteItem : QuoteItem.t)
    (matchedProduct : option Product.t) : M PriceResult.t :=
  try_catch
    (let widthInches := QuoteItem.widthInches quoteItem in
     let heightInches := QuoteItem.heightInches quoteItem in
     let quantity := QuoteItem.quantity quoteItem in
     p <- deref matchedProduct ;;
     let windowType := mapWindowType (Product.productName p) in
     let material := mapMaterial (Product.materialType p) in
     let glassType := mapGlassType (QuoteItem.description quoteItem) in
     let measurements :=
       {| Measurements.width := widthInches;
          Measurements.height := heightInches;
          Measurements.quantity := quantity |} in
     let options :=
       {| Options.windowType := windowType;
          Options.material := material;
          Options.glassType := glassType |} in
     calculation <- of_result (calculatePrice measurements options) ;;
     ret {| PriceResult.totalPrice := Calculation.totalPrice calculation;
            PriceResult.pricePerWindow := Calculation.pricePerWindow calculation;
            PriceResult.basePrice := Calculation.basePrice calculation;
            PriceResult.optionsPrice := Calculation.optionsPrice calculation;
            PriceResult.options := options |})
    (fun _ =>
       console_error "Failed to calculate Warnke price:" ;;;
       p <- deref matchedProduct ;;
       ret {| PriceResult.totalPrice :=
                PrimFloat.mul (QuoteItem.quantity quoteItem) (Product.basePrice p);
              PriceResult.pricePerWindow := Product.basePrice p;
              PriceResult.basePrice := Product.basePrice p;
              PriceResult.optionsPrice := 0%float;
              PriceResult.options :=
                {| Options.windowType := js "double-hung";
                   Options.material := js "vinyl";
                   Options.glassType := js "double-pane" |} |}).

(** The body of the [try] in the loop of [generateComparisonItems]: the
    comparison item created for one quote item. *)
Definition createComparisonItem (comparisonId : Id) (products : list Product.t)
    (quoteItem : QuoteItem.t) : M ComparisonItem.t :=
  matchedProduct <- of_result (matchProduct quoteItem products) ;;
  priceCalculation <- calculateWarnkePrice quoteItem matchedProduct ;;
  p <- deref matchedProduct ;;
  id <- generateId ;;
  let total := QuoteItem.totalPrice quoteItem in
  let price := PriceResult.totalPrice priceCalculation in
  createDocument_COMPARISON_ITEMS
    {| ComparisonItem.comparisonItemId := id;
       ComparisonItem.comparisonId := comparisonId;
       ComparisonItem.quoteItemId := QuoteItem.itemId quoteItem;
       ComparisonItem.competitorProductDescription := QuoteItem.description quoteItem;
       ComparisonItem.competitorOptions :=
         extractOptions (QuoteItem.description quoteItem);
       ComparisonItem.competitorPrice := total;
       ComparisonItem.warnkeProductId := Product.productId p;
       ComparisonItem.warnkeProductName := Product.productName p;
       ComparisonItem.warnkeProductDescription := Product.description p;
       ComparisonItem.warnkeOptions :=
         formatOptions (PriceResult.options priceCalculation);
       ComparisonItem.warnkePrice := price;
       ComparisonItem.width := QuoteItem.widthInches quoteItem;
       ComparisonItem.height := QuoteItem.heightInches quoteItem;
       ComparisonItem.quantity := QuoteItem.quantity quoteItem;
       ComparisonItem.savingsAmount := PrimFloat.sub total price;
       ComparisonItem.savingsPercentage :=
         (if PrimFloat.ltb 0 total
          then PrimFloat.mul (PrimFloat.div (PrimFloat.sub total price) total) 100
          else 0)%float;
       ComparisonItem.matchConfidence := Product.confidence p |}.

(** The loop of [generateComparisonItems], [comparisonItems] being the array
    filled so far. *)
Fixpoint generateComparisonItems_from (comparisonItems : list ComparisonItem.t)
    (comparisonId : Id) (quoteItems : list QuoteItem.t)
    (products : list Product.t) : M (list ComparisonItem.t) :=
  match quoteItems with
  | [] => ret comparisonItems
  | quoteItem :: rest =>
      comparisonItems' <-
        try_catch
          (createdItem <- createComparisonItem comparisonId products quoteItem ;;
           ret (comparisonItems ++ [createdItem]))
          (fun _ =>
             console_error "Failed to generate comparison item:" ;;;
             ret comparisonItems) ;;
      generateComparisonItems_from comparisonItems' comparisonId rest products
  end.

(** [generateComparisonItems(comparisonId, quoteItems, products)] *)
Definition generateComparisonItems (comparisonId : Id)
    (quoteItems : list QuoteItem.t) (products : list Product.t)
  : M (list ComparisonItem.t) :=
  generateComparisonItems_from [] comparisonId quoteItems products.

(** [comparisonItems.reduce((total, item) => total + item.warnkePrice, 0)] *)
Definition sumWarnkePrice (comparisonItems : list ComparisonItem.t) : float :=
  fold_left (fun total item => PrimFloat.add total (ComparisonItem.warnkePrice item))
    comparisonItems 0%float.

(** [Promise.all] of the three reads: all are issued, and the first
    rejection, if any, is the rejection of the whole. *)
Definition readAll (quoteId : Id)
  : M (Quote.t * list QuoteItem.t * list Product.t) :=
  r1 <- settle (QuoteManager.getQuoteDetails quoteId) ;;
  r2 <- settle (QuoteManager.getQuoteItems quoteId) ;;
  r3 <- settle getProducts ;;
  quote <- of_result r1 ;;
  quoteItems <- of_result r2 ;;
  products <- of_result r3 ;;
  ret (quote, quoteItems, products).

Record Generated := {
  comparison : Comparison.t;
  items : list ComparisonItem.t
}.

(** [generateComparison(quoteId, projectId)] *)
Definition generateComparison (quoteId projectId : Id) : M Generated :=
  try_catch
    (read <- readAll quoteId ;;
     let '(quote, quoteItems, products) := read in
     id <- generateId ;;
     let comparisonData :=
       {| Comparison.comparisonId := id;
          Comparison.projectId := projectId;
          Comparison.quoteId := quoteId;
          Comparison.competitorName := Quote.competitorName quote;
          Comparison.totalCompetitorPrice := Quote.totalAmount quote;
          Comparison.totalWarnkePrice := 0%float;
          Comparison.savingsAmount := 0%float;
          Comparison.savingsPercentage := 0%float;
          Comparison.status := "generated" |} in
     comparison <- createDocument_COMPARISONS comparisonData ;;
     comparisonItems <-
       generateComparisonItems (Comparison.comparisonId comparison)
         quoteItems products ;;
     let totalWarnkePrice := sumWarnkePrice comparisonItems in
     let savingsAmount := PrimFloat.sub (Quote.totalAmount quote) totalWarnkePrice in
     let savingsPercentage :=
       (if PrimFloat.ltb 0 (Quote.totalAmount quote)
        then PrimFloat.mul (PrimFloat.div savingsAmount (Quote.totalAmount quote)) 100
        else 0)%float in
     updatedComparison <-
       updateDocument_COMPARISONS
         {| Comparison.comparisonId := Comparison.comparisonId comparison;
            Comparison.projectId := Comparison.projectId comparison;
            Comparison.quoteId := Comparison.quoteId comparison;
            Comparison.competitorName := Comparison.competitorName comparison;
            Comparison.totalCompetitorPrice :=
              Comparison.totalCompetitorPrice comparison;
            Comparison.totalWarnkePrice := totalWarnkePrice;
            Comparison.savingsAmount := savingsAmount;
            Comparison.savingsPercentage := savingsPercentage;
            Comparison.status := Comparison.status comparison |} ;;
     ret {| comparison := updatedComparison; items := comparisonItems |})
    (fun _ =>
       console_error "Failed to generate comparison:" ;;;
       raise (Error "Failed to generate comparison. Please try again.")).

End Host.

End ComparisonManager.

(** ** The vocabulary of the specification *)

Module Spec.

Local Open Scope string_scope.

(** The canonical values of the three attribute mappers. *)
Definition windowTypes : list jsstring :=
  map js ["double-hung"; "casement"; "awning"; "slider"; "picture"; "bay"; "bow";
          "garden"].
Definition materials : list jsstring :=
  map js ["vinyl"; "fiberglass"; "wood"; "aluminum"; "composite"].
Definition glassTypes : list jsstring :=
  map js ["triple-pane"; "single-pane"; "double-pane"].

(** The keywords each mapper looks for. *)
Definition windowKeywords : list string :=
  ["double-hung"; "double hung"; "casement"; "awning"; "slider"; "sliding";
   "picture"; "fixed"; "bay"; "bow"; "garden"].
Definition materialKeywords : list string :=
  ["vinyl"; "fiberglass"; "wood"; "aluminum"; "composite"].
Definition glassKeywords : list string :=
  ["triple"; "3-pane"; "3 pane"; "single"; "1-pane"; "1 pane"].

(** [s], already in lower case, carries one of the keywords. *)
Definition mentions (s : jsstring) (keywords : list string) : bool :=
  existsb (fun k => includes s (js k)) keywords.

(** The feature labels, in the order [extractOptions] checks them. *)
Definition featureLabels : list jsstring :=
  map js ["Low-E Glass"; "Argon Gas"; "ENERGY STAR"; "Tempered Glass"; "Grids";
          "Screens"; "Tilt Feature"].

(** [l] is [l'] with some elements left out, the order kept. *)
Inductive Subseq {A : Type} : list A -> list A -> Prop :=
| Subseq_nil : Subseq [] []
| Subseq_keep x l l' : Subseq l l' -> Subseq (x :: l) (x :: l')
| Subseq_skip x l l' : Subseq l l' -> Subseq l (x :: l').


(** What [parseQuoteText] returns when it finds nothing. *)
Definition defaults : QuoteText.ParsedQuote :=
  {| QuoteText.quoteNumber := []; QuoteText.quoteDate := None;
     QuoteText.totalAmount := 0%float; QuoteText.items := [] |}.

(** The text of the dimension round trip. *)
Definition sampleQuote : jsstring :=
  (js "Quote #AB-1234" ++ nl :: js "Date: 03/15/2024" ++ nl ::
   js "36 x 60 Low-E Argon $450.00" ++ nl :: js "Total: $450.00")%list.

Definition march_15_2024 : QuoteText.JSDate :=
  {| QuoteText.year := 2024; QuoteText.month := 3; QuoteText.day := 15 |}.

(** The call [calculateWarnkePrice] makes to the pricing engine for a quote
    item and the product matched to it. *)
Definition pricingCall (env : ComparisonManager.Env.t) (quoteItem : QuoteItem.t)
    (p : Product.t) : result ComparisonManager.Calculation.t :=
  ComparisonManager.Env.calculatePrice env
    {| ComparisonManager.Measurements.width := QuoteItem.widthInches quoteItem;
       ComparisonManager.Measurements.height := QuoteItem.heightInches quoteItem;
       ComparisonManager.Measurements.quantity := QuoteItem.quantity quoteItem |}
    {| ComparisonManager.Options.windowType :=
         ComparisonManager.mapWindowType env (Product.productName p);
       ComparisonManager.Options.material :=
         ComparisonManager.mapMaterial env (Product.materialType p);
       ComparisonManager.Options.glassType :=
         ComparisonManager.mapGlassType env (QuoteItem.description quoteItem) |}.

(** The options of the fallback price. *)
Definition defaultOptions : ComparisonManager.Options.t :=
  {| ComparisonManager.Options.windowType := js "double-hung";
     ComparisonManager.Options.material := js "vinyl";
     ComparisonManager.Options.glassType := js "double-pane" |}.

(** The comparison item [c] was made for the quote item [q]. *)
Definition madeFor (c : ComparisonItem.t) (q : QuoteItem.t) : Prop :=
  ComparisonItem.quoteItemId c = QuoteItem.itemId q
  /\ ComparisonItem.competitorProductDescription c = QuoteItem.description q
  /\ ComparisonItem.competitorPrice c = QuoteItem.totalPrice q.

(** The quote and the quote items a call for [quoteId] reads in [w]. *)
Definition quoteOf (quoteId : Id) (w : World) : option Quote.t :=
  find (fun q => Nat.eqb (Quote.quoteId q) quoteId) (quotes w).
Definition itemsOf (quoteId : Id) (w : World) : list QuoteItem.t :=
  filter (fun i => Nat.eqb (QuoteItem.quoteId i) quoteId) (quoteItems w).

(** The world after [console.error] has printed [message]. *)
Definition printed (message : string) (w : World) : World :=
  set_console (console w ++ [message]) w.
Definition fallbackNote : World -> World :=
  printed "Failed to calculate Warnke price:".

(** [w'] holds the documents of [w]: only the console, the pending faults and
    the identifier supply may differ. *)
Definition sameDocuments (w w' : World) : Prop :=
  quotes w' = quotes w /\ quoteItems w' = quoteItems w
  /\ products w' = products w /\ comparisons w' = comparisons w
  /\ comparisonItems w' = comparisonItems w.

Definition itemNote : World -> World :=
  printed "Failed to generate comparison item:".

(** The quote item a call for [itemId] reads in [w]. *)
Definition itemOf (itemId : Id) (w : World) : option QuoteItem.t :=
  find (fun i => Nat.eqb (QuoteItem.itemId i) itemId) (quoteItems w).



(** The text carries no decimal digit. *)
Definition digitFree (s : jsstring) : Prop :=
  forallb (fun c => negb (isDigit c)) s = true.

(** Every match of the pattern reads at least one decimal digit. *)
Inductive NeedsDigit : regex -> Prop :=
| NeedsDigit_Chr p :
    (forall c, p c = true -> isDigit c = true) -> NeedsDigit (Chr p)
| NeedsDigit_Seq_l r1 r2 : NeedsDigit r1 -> NeedsDigit (Seq r1 r2)
| NeedsDigit_Seq_r r1 r2 : NeedsDigit r2 -> NeedsDigit (Seq r1 r2)
| NeedsDigit_Alt r1 r2 : NeedsDigit r1 -> NeedsDigit r2 -> NeedsDigit (Alt r1 r2)
| NeedsDigit_Group i r : NeedsDigit r -> NeedsDigit (Group i r).

End Spec.
Import Spec.

(** ** A small world to run the code in *)

Module Sample.

Definition lower (c : jschar) : jschar := if isUpper c then (c + 32)%N else c.
Definition upper (c : jschar) : jschar := if isLower c then (c - 32)%N else c.

(** A matcher that takes the first product whose material the description
    of the quote item names. *)
Definition matchByMaterial (q : QuoteItem.t) (products : list Product.t)
  : result (option Product.t) :=
  Ok (find (fun p => includes (map lower (QuoteItem.description q))
                       (map lower (Product.materialType p)))
        products).

(** A pricing engine that is down. *)
Definition pricingDown (m : ComparisonManager.Measurements.t)
    (o : ComparisonManager.Options.t)
  : result ComparisonManager.Calculation.t :=
  Err (Error "API call failed").

Definition env : ComparisonManager.Env.t :=
  {| ComparisonManager.Env.toLowerCase := map lower;
     ComparisonManager.Env.toUpperCase := map upper;
     ComparisonManager.Env.matchProduct := matchByMaterial;
     ComparisonManager.Env.calculatePrice := pricingDown |}.

Definition vinylDoubleHung : Product.t :=
  {| Product.productId := 101;
     Product.productName := js "Classic Double-Hung";
     Product.description := js "Vinyl double-hung window";
     Product.materialType := js "Vinyl";
     Product.basePrice := 300%float;
     Product.confidence := 0.9%float |}.

Definition woodCasement : Product.t :=
  {| Product.productId := 102;
     Product.productName := js "Heritage Casement";
     Product.description := js "Wood casement window";
     Product.materialType := js "Wood";
     Product.basePrice := 550%float;
     Product.confidence := 0.7%float |}.

Definition quote : Quote.t :=
  {| Quote.quoteId := 1; Quote.projectId := 7;
     Quote.competitorName := js "pella";
     Quote.extractionStatus := "processed";
     Quote.quoteNumber := js "AB-1234";
     Quote.quoteDate := Some march_15_2024;
     Quote.totalAmount := 1500%float;
     Quote.itemsCount := 3 |}.

Definition item1 : QuoteItem.t :=
  {| QuoteItem.itemId := 11; QuoteItem.quoteId := 1;
     QuoteItem.widthInches := 36%float; QuoteItem.heightInches := 60%float;
     QuoteItem.description := js "Vinyl double hung, Low-E";
     QuoteItem.quantity := 2%float; QuoteItem.unitPrice := 400%float;
     QuoteItem.totalPrice := 800%float;
     QuoteItem.confidenceScore := 0.8%float |}.

Definition item2 : QuoteItem.t :=
  {| QuoteItem.itemId := 12; QuoteItem.quoteId := 1;
     QuoteItem.widthInches := 36%float; QuoteItem.heightInches := 80%float;
     QuoteItem.description := js "Steel entry door";
     QuoteItem.quantity := 1%float; QuoteItem.unitPrice := 500%float;
     QuoteItem.totalPrice := 500%float;
     QuoteItem.confidenceScore := 0.8%float |}.

Definition item3 : QuoteItem.t :=
  {| QuoteItem.itemId := 13; QuoteItem.quoteId := 1;
     QuoteItem.widthInches := 24%float; QuoteItem.heightInches := 48%float;
     QuoteItem.description := js "Wood casement, argon";
     QuoteItem.quantity := 1%float; QuoteItem.unitPrice := 200%float;
     QuoteItem.totalPrice := 200%float;
     QuoteItem.confidenceScore := 0.8%float |}.

(** A second quote, of one line of seven windows. *)
Definition quote2 : Quote.t :=
  {| Quote.quoteId := 2; Quote.projectId := 7;
     Quote.competitorName := js "marvin";
     Quote.extractionStatus := "processed";
     Quote.quoteNumber := js "M-77";
     Quote.quoteDate := None;
     Quote.totalAmount := 700%float;
     Quote.itemsCount := 1 |}.

Definition item21 : QuoteItem.t :=
  {| QuoteItem.itemId := 21; QuoteItem.quoteId := 2;
     QuoteItem.widthInches := 30%float; QuoteItem.heightInches := 54%float;
     QuoteItem.description := js "Vinyl slider";
     QuoteItem.quantity := 7%float; QuoteItem.unitPrice := 100%float;
     QuoteItem.totalPrice := 700%float;
     QuoteItem.confidenceScore := 0.8%float |}.

Definition world : World :=
  {| quotes := [quote; quote2];
     quoteItems := [item1; item2; item3; item21];
     products := [vinylDoubleHung; woodCasement];
     comparisons := [];
     comparisonItems := [];
     faults := [];
     nextId := 1000;
     console := [] |}.

End Sample.

(** ** The rest of the two managers *)

Module StoreMore.

(** [getDocument(COMPARISONS_COLLECTION, id)] *)
Definition getDocument_COMPARISONS (id : Id) : M (option Comparison.t) :=
  storeCall ;;;
  get (fun w => find (fun c => Nat.eqb (Comparison.comparisonId c) id)
                  (comparisons w)).

(** [queryDocuments(COMPARISON_ITEMS_COLLECTION).eq('comparisonId', id).find()] *)
Definition query_COMPARISON_ITEMS (id : Id) : M (list ComparisonItem.t) :=
  storeCall ;;;
  get (fun w => filter (fun i => Nat.eqb (ComparisonItem.comparisonId i) id)
                  (comparisonItems w)).

(** [createDocument(QUOTE_ITEMS_COLLECTION, doc)] *)
Definition createDocument_QUOTE_ITEMS (doc : QuoteItem.t) : M QuoteItem.t :=
  storeCall ;;;
  modify (fun w => set_quoteItems (quoteItems w ++ [doc]) w) ;;;
  ret doc.

(** [deleteDocument(...)] : the quote manager calls this name without
    importing or defining it, so the call raises a ReferenceError. *)
Definition deleteDocument {A} : M A :=
  raise (Error "deleteDocument is not defined").

End StoreMore.
Import StoreMore.

Module ComparisonQueries.

(** [{...comparison, status}] *)
Definition with_status (c : Comparison.t) (status : string) : Comparison.t :=
  {| Comparison.comparisonId := Comparison.comparisonId c;
     Comparison.projectId := Comparison.projectId c;
     Comparison.quoteId := Comparison.quoteId c;
     Comparison.competitorName := Comparison.competitorName c;
     Comparison.totalCompetitorPrice := Comparison.totalCompetitorPrice c;
     Comparison.totalWarnkePrice := Comparison.totalWarnkePrice c;
     Comparison.savingsAmount := Comparison.savingsAmount c;
     Comparison.savingsPercentage := Comparison.savingsPercentage c;
     Comparison.status := status |}.

(** [getComparisonDetails(comparisonId)] *)
Definition getComparisonDetails (comparisonId : Id) : M Comparison.t :=
  try_catch
    (comparison <- getDocument_COMPARISONS comparisonId ;;
     match comparison with
     | None => raise (Error "Comparison not found")
     | Some c => ret c
     end)
    (fun _ =>
       console_error "Failed to get comparison details:" ;;;
       raise (Error "Failed to get comparison details. Please try again.")).

(** [getComparisonItems(comparisonId)] *)
Definition getComparisonItems (comparisonId : Id) : M (list ComparisonItem.t) :=
  try_catch
    (query_COMPARISON_ITEMS comparisonId)
    (fun _ =>
       console_error "Failed to get comparison items:" ;;;
       raise (Error "Failed to get comparison items. Please try again.")).

(** [updateComparisonStatus(comparisonId, status)] *)
Definition updateComparisonStatus (comparisonId : Id) (status : string)
  : M Comparison.t :=
  try_catch
    (comparison <- getDocument_COMPARISONS comparisonId ;;
     match comparison with
     | None => raise (Error "Comparison not found")
     | Some c => updateDocument_COMPARISONS (with_status c status)
     end)
    (fun _ =>
       console_error "Failed to update comparison status:" ;;;
       raise (Error "Failed to update comparison status. Please try again.")).

End ComparisonQueries.

Module QuoteProcessing.

(** [{...quote, extractionStatus: status}] *)
Definition with_status (q : Quote.t) (status : string) : Quote.t :=
  {| Quote.quoteId := Quote.quoteId q; Quote.projectId := Quote.projectId q;
     Quote.competitorName := Quote.competitorName q;
     Quote.extractionStatus := status; Quote.quoteNumber := Quote.quoteNumber q;
     Quote.quoteDate := Quote.quoteDate q; Quote.totalAmount := Quote.totalAmount q;
     Quote.itemsCount := Quote.itemsCount q |}.

(** [x || 0] on a number: 0, -0 and NaN are falsy. *)
Definition orZero (x : float) : float :=
  if PrimFloat.is_nan x || PrimFloat.is_zero x then 0%float else x.

(** [{...item, quoteId, itemId}] for a parsed item. *)
Definition newItem (quoteId itemId : Id) (item : QuoteText.Item) : QuoteItem.t :=
  {| QuoteItem.itemId := itemId;
     QuoteItem.quoteId := quoteId;
     QuoteItem.widthInches := QuoteText.widthInches item;
     QuoteItem.heightInches := QuoteText.heightInches item;
     QuoteItem.description := QuoteText.description item;
     QuoteItem.quantity := QuoteText.quantity item;
     QuoteItem.unitPrice := QuoteText.unitPrice item;
     QuoteItem.totalPrice := QuoteText.totalPrice item;
     QuoteItem.confidenceScore := QuoteText.confidenceScore item |}.

(** The loop of [createQuoteItems], [createdItems] being the array filled so
    far. *)
Fixpoint createQuoteItems_from (createdItems : list QuoteItem.t) (quoteId : Id)
    (items : list QuoteText.Item) : M (list QuoteItem.t) :=
  match items with
  | [] => ret createdItems
  | item :: rest =>
      createdItems' <-
        try_catch
          (id <- generateId ;;
           result <- createDocument_QUOTE_ITEMS (newItem quoteId id item) ;;
           ret (createdItems ++ [result]))
          (fun _ =>
             console_error "Failed to create quote item:" ;;;
             ret createdItems) ;;
      createQuoteItems_from createdItems' quoteId rest
  end.

(** [createQuoteItems(quoteId, items)] *)
Definition createQuoteItems (quoteId : Id) (items : list QuoteText.Item)
  : M (list QuoteItem.t) :=
  createQuoteItems_from [] quoteId items.

(** [verifyQuote(quoteId)] *)
Definition verifyQuote (quoteId : Id) : M Quote.t :=
  try_catch
    (quote <- getDocument_QUOTES quoteId ;;
     match quote with
     | None => raise (Error "Quote not found")
     | Some q => updateDocument_QUOTES (with_status q "verified")
     end)
    (fun _ =>
       console_error "Failed to verify quote:" ;;;
       raise (Error "Failed to verify quote. Please try again.")).

(** [results.items.map(item => deleteDocument(...))] : the callback runs, and
    raises, on the first item. *)
Definition deleteEach (items : list QuoteItem.t) : M unit :=
  match items with
  | [] => ret tt
  | _ :: _ => deleteDocument
  end.

(** [deleteQuoteItems(quoteId)] : the error is printed and thrown again. *)
Definition deleteQuoteItems (quoteId : Id) : M unit :=
  try_catch
    (items <- query_QUOTE_ITEMS quoteId ;;
     deleteEach items)
    (fun error =>
       console_error "Failed to delete quote items:" ;;;
       raise error).

(** [deleteQuote(quoteId)] : the array given to [Promise.all] is built from
    left to right. *)
Definition deleteQuote (quoteId : Id) : M bool :=
  try_catch
    (@deleteDocument unit ;;;
     deleteQuoteItems quoteId ;;;
     ret true)
    (fun _ =>
       console_error "Failed to delete quote:" ;;;
       raise (Error "Failed to delete quote. Please try again.")).

Section Processing.

(** [extractText(quote.documentUrl)] of the media backend, which returns the
    text of the uploaded document or raises; and the two host functions
    [parseQuoteText] takes. *)
Variable extractText : Quote.t -> result jsstring.
Variable Date_parse : jsstring -> option QuoteText.JSDate.
Variable Number_toString : float -> jsstring.

(** The quote [processQuote] writes at the end. *)
Definition processed (quote : Quote.t) (parsedData : QuoteText.ParsedQuote)
    (quoteItems : list QuoteItem.t) : Quote.t :=
  {| Quote.quoteId := Quote.quoteId quote;
     Quote.projectId := Quote.projectId quote;
     Quote.competitorName := Quote.competitorName quote;
     Quote.extractionStatus := "processed";
     Quote.quoteNumber := QuoteText.quoteNumber parsedData;
     Quote.quoteDate := QuoteText.quoteDate parsedData;
     Quote.totalAmount := orZero (QuoteText.totalAmount parsedData);
     Quote.itemsCount := List.length quoteItems |}.

(** The [catch] of [processQuote]: the status is set to error when the quote
    can be read, and a failure to do so is only printed. *)
Definition markError (quoteId : Id) : M unit :=
  try_catch
    (quote <- getDocument_QUOTES quoteId ;;
     match quote with
     | Some q => updateDocument_QUOTES (with_status q "error") ;;; ret tt
     | None => ret tt
     end)
    (fun _ => console_error "Failed to update quote status:").

(** [processQuote(quoteId)] *)
Definition processQuote (quoteId : Id) : M Quote.t :=
  try_catch
    (quote <- getDocument_QUOTES quoteId ;;
     match quote with
     | None => raise (Error "Quote not found")
     | Some quote =>
         updateDocument_QUOTES (with_status quote "processing") ;;;
         extractedText <- of_result (extractText quote) ;;
         let parsedData :=
           QuoteText.parseQuoteText Date_parse Number_toString extractedText in
         quoteItems <- createQuoteItems quoteId (QuoteText.items parsedData) ;;
         updateDocument_QUOTES (processed quote parsedData quoteItems)
     end)
    (fun _ =>
       console_error "Failed to process quote:" ;;;
       markError quoteId ;;;
       raise (Error "Failed to process quote. Please try again.")).

End Processing.

End QuoteProcessing.

(** ** Vocabulary for the store *)

Module StoreSpec.

(** The store after one quote item: the documents of before, with the new
    comparison item at the end when one was made. *)
Definition keptBut (added : list ComparisonItem.t) (w w' : World) : Prop :=
  quotes w' = quotes w /\ quoteItems w' = quoteItems w
  /\ products w' = products w /\ comparisons w' = comparisons w
  /\ comparisonItems w' = comparisonItems w ++ added
  /\ (faults w = [] -> faults w' = []).

(** The comparison that carries an identifier, when there is one. *)
Definition comparisonOf (id : Id) (w : World) : option Comparison.t :=
  find (fun c => Nat.eqb (Comparison.comparisonId c) id) (comparisons w).

(** The parsed items as they are stored when nothing fails: identifiers are
    drawn one after the other, from [n] on. *)
Fixpoint numbered (quoteId n : Id) (items : list QuoteText.Item)
  : list QuoteItem.t :=
  match items with
  | [] => []
  | item :: rest => QuoteProcessing.newItem quoteId n item :: numbered quoteId (S n) rest
  end.


(** What holds of every item of a parsed quote: positive dimensions, a
    description, a unit price that is the total over the quantity, and the
    fixed confidence score. *)
Definition wellFormed (it : QuoteText.Item) : Prop :=
  PrimFloat.ltb 0 (QuoteText.widthInches it) = true
  /\ PrimFloat.ltb 0 (QuoteText.heightInches it) = true
  /\ QuoteText.description it <> []
  /\ QuoteText.unitPrice it
     = PrimFloat.div (QuoteText.totalPrice it) (QuoteText.quantity it)
  /\ QuoteText.confidenceScore it = 0.8%float.

(** The sample world without any quote item, and with one comparison. *)
Definition withoutItems : World := set_quoteItems [] Sample.world.

Definition sampleComparison : Comparison.t :=
  {| Comparison.comparisonId := 500;
     Comparison.projectId := 7;
     Comparison.quoteId := 1;
     Comparison.competitorName := js "pella";
     Comparison.totalCompetitorPrice := 1500%float;
     Comparison.totalWarnkePrice := 1150%float;
     Comparison.savingsAmount := 350%float;
     Comparison.savingsPercentage := 23.333333333333332%float;
     Comparison.status := "generated" |}.

Definition withComparison : World :=
  set_comparisons [sampleComparison] Sample.world.

(** Two media backends: one that reads the sample quote out of every
    document, one that cannot read any. *)
Definition readsSample (q : Quote.t) : result jsstring := Ok sampleQuote.


End StoreSpec.
Import StoreSpec.

(** * Properties *)

(** ** Number parsing, on examples *)

Example parseFloat_450 : parseFloat (js "450.00") = 450%float.
Proof. reflexivity. Qed.

Example parseFloat_fraction : parseFloat (js ".12") = 0.12%float.
Proof. reflexivity. Qed.

Example parseFloat_exponent : parseFloat (js "1.5e3xyz") = 1500%float.
Proof. reflexivity. Qed.

Example parseFloat_none : parseFloat (js "abc") = nan.
Proof. reflexivity. Qed.

Example parseInt_12 : parseInt (js "12") = 12%float.
Proof. reflexivity. Qed.

Example toString_examples :
  map Number.toString
    [36; 36.5; 0.1; 0.000001; 1e-7; 1e21; 450.00000000000006; -2.5]%float
  = map js ["36"; "36.5"; "0.1"; "0.000001"; "1e-7"; "1e+21";
            "450.00000000000006"; "-2.5"]%string.
Proof. vm_compute. reflexivity. Qed.

(** ** The matcher *)

Section Matcher.

(** The bound of [star_loop] is never reached: with any bound that is at
    least the length of the input, the loop satisfies the equation of a
    greedy iteration. *)
Lemma star_loop_bound step :
  forall n m s c,
    (List.length s <= n)%nat -> (List.length s <= m)%nat ->
    star_loop step n s c = star_loop step m s c.
Proof.
  induction n as [|n IH]; intros m s c Hn Hm.
  - destruct s; [|simpl in Hn; lia].
    destruct m as [|m]; [reflexivity|]. simpl.
    replace (flat_map _ (step [] c)) with (@nil mstate); [reflexivity|].
    induction (step [] c) as [|st l IHl]; [reflexivity|].
    simpl. exact IHl.
  - destruct m as [|m].
    + destruct s; [|simpl in Hm; lia]. simpl.
      replace (flat_map _ (step [] c)) with (@nil mstate); [reflexivity|].
      induction (step [] c) as [|st l IHl]; [reflexivity|].
      simpl. exact IHl.
    + simpl. f_equal.
      induction (step s c) as [|st l IHl]; [reflexivity|].
      simpl. rewrite IHl. f_equal.
      destruct (Nat.ltb_spec (List.length (fst st)) (List.length s)) as [Hlt|Hge];
        [|reflexivity].
      apply IH; lia.
Qed.

Lemma rmatch_Star r s c :
  rmatch (Star r) s c =
  flat_map (fun st : mstate =>
              if (List.length (fst st) <? List.length s)%nat
              then rmatch (Star r) (fst st) (snd st)
              else [])
           (rmatch r s c)
  ++ [(s, c)].
Proof.
  change (rmatch (Star r) s c)
    with (star_loop (rmatch r) (List.length s) s c).
  rewrite (star_loop_bound (rmatch r) (List.length s) (S (List.length s)) s c)
    by lia.
  simpl. f_equal. apply flat_map_ext. intros st.
  destruct (Nat.ltb_spec (List.length (fst st)) (List.length s)) as [Hlt|Hge];
    [|reflexivity].
  apply star_loop_bound; lia.
Qed.

Lemma test_false r s : test r s = false <-> exec r s = None.
Proof.
  unfold test. destruct (exec r s); split; intros H; congruence.
Qed.

Lemma matchAll_none r s : exec r s = None -> matchAll r s = [].
Proof.
  unfold matchAll, exec. intros H. simpl. rewrite H. reflexivity.
Qed.

(** What a match leaves is a suffix of the input. *)
Lemma star_loop_suffix step :
  (forall s c s' c', In (s', c') (step s c) -> exists pre, s = pre ++ s') ->
  forall n s c s' c',
    In (s', c') (star_loop step n s c) -> exists pre, s = pre ++ s'.
Proof.
  intros Hstep. induction n as [|n IH]; intros s c s' c' Hin; simpl in Hin.
  - destruct Hin as [Heq|[]]. inversion Heq; subst. exists []. reflexivity.
  - apply in_app_or in Hin. destruct Hin as [Hin|[Heq|[]]].
    + apply in_flat_map in Hin. destruct Hin as ([s1 c1] & Hin1 & Hin2).
      simpl in Hin2.
      destruct (List.length s1 <? List.length s)%nat; [|destruct Hin2].
      apply Hstep in Hin1. destruct Hin1 as (pre1 & ->).
      apply IH in Hin2. destruct Hin2 as (pre2 & ->).
      exists (pre1 ++ pre2). rewrite app_assoc. reflexivity.
    + inversion Heq; subst. exists []. reflexivity.
Qed.

Lemma rmatch_suffix r :
  forall s c s' c', In (s', c') (rmatch r s c) -> exists pre, s = pre ++ s'.
Proof.
  induction r as [|p|r1 IH1 r2 IH2|r1 IH1 r2 IH2|r IH|i r IH];
    intros s c s' c' Hin; simpl in Hin.
  - destruct Hin as [Heq|[]]. inversion Heq; subst. exists []. reflexivity.
  - destruct s as [|x s]; [destruct Hin|].
    destruct (p x); [|destruct Hin].
    destruct Hin as [Heq|[]]. inversion Heq; subst. exists [x]. reflexivity.
  - apply in_flat_map in Hin. destruct Hin as ([s1 c1] & Hin1 & Hin2).
    simpl in Hin2.
    apply IH1 in Hin1. destruct Hin1 as (pre1 & ->).
    apply IH2 in Hin2. destruct Hin2 as (pre2 & ->).
    exists (pre1 ++ pre2). rewrite app_assoc. reflexivity.
  - apply in_app_or in Hin. destruct Hin as [Hin|Hin].
    + eapply IH1, Hin.
    + eapply IH2, Hin.
  - eapply star_loop_suffix; [exact IH|exact Hin].
  - apply in_map_iff in Hin. destruct Hin as ([s1 c1] & Heq & Hin).
    inversion Heq; subst. eapply IH, Hin.
Qed.

Lemma digitFree_suffix pre s : digitFree (pre ++ s) -> digitFree s.
Proof.
  unfold digitFree. rewrite forallb_app. intros H.
  apply andb_true_iff in H. apply H.
Qed.

(** A pattern that needs a digit matches nowhere in a text without digits. *)
Lemma NeedsDigit_rmatch r :
  NeedsDigit r -> forall s c, digitFree s -> rmatch r s c = [].
Proof.
  induction 1 as [p Hp|r1 r2 _ IH|r1 r2 _ IH|r1 r2 _ IH1 _ IH2|i r _ IH];
    intros s c Hs; simpl.
  - destruct s as [|x s]; [reflexivity|].
    destruct (p x) eqn:Hx; [|reflexivity].
    apply Hp in Hx. unfold digitFree in Hs. simpl in Hs.
    rewrite Hx in Hs. discriminate.
  - rewrite IH by exact Hs. reflexivity.
  - pose proof (rmatch_suffix r1 s c) as Hsuf.
    induction (rmatch r1 s c) as [|[s1 c1] l IHl]; [reflexivity|].
    simpl. rewrite IHl by (intros; eapply Hsuf; right; eassumption).
    destruct (Hsuf s1 c1 (or_introl eq_refl)) as (pre & Hpre).
    rewrite (IH s1 c1); [reflexivity|].
    apply (digitFree_suffix pre). rewrite <- Hpre. exact Hs.
  - rewrite IH1, IH2 by exact Hs. reflexivity.
  - rewrite IH by exact Hs. reflexivity.
Qed.

Lemma NeedsDigit_exec r s :
  NeedsDigit r -> digitFree s -> exec r s = None.
Proof.
  intros Hr. unfold exec. generalize 0%nat.
  induction s as [|x s IH]; intros i Hs; simpl.
  - rewrite (NeedsDigit_rmatch r Hr) by exact Hs. reflexivity.
  - rewrite (NeedsDigit_rmatch r Hr) by exact Hs.
    apply IH. apply (digitFree_suffix [x]). exact Hs.
Qed.

End Matcher.

(** ** Subsequences *)

Section Subsequences.

Context {A : Type}.

Lemma Subseq_refl (l : list A) : Subseq l l.
Proof. induction l; constructor; assumption. Qed.

Lemma Subseq_In (l l' : list A) :
  Subseq l l' -> forall x, In x l -> In x l'.
Proof.
  induction 1 as [|y l l' _ IH|y l l' _ IH]; intros x Hx.
  - exact Hx.
  - destruct Hx as [->|Hx]; [left; reflexivity|right; apply IH, Hx].
  - right. apply IH, Hx.
Qed.

Lemma Subseq_NoDup (l l' : list A) : Subseq l l' -> NoDup l' -> NoDup l.
Proof.
  induction 1 as [|y l l' Hs IH|y l l' _ IH]; intros Hnd.
  - constructor.
  - inversion Hnd as [|? ? Hnotin Hnd']; subst. constructor.
    + intros Hin. apply Hnotin. eapply Subseq_In; eassumption.
    + apply IH, Hnd'.
  - inversion Hnd; subst. apply IH. assumption.
Qed.

Lemma Subseq_app_keep (l l' : list A) x :
  Subseq l l' -> Subseq (l ++ [x]) (l' ++ [x]).
Proof.
  induction 1; simpl; repeat constructor; assumption.
Qed.

Lemma Subseq_app_skip (l l' : list A) x :
  Subseq l l' -> Subseq l (l' ++ [x]).
Proof.
  induction 1; simpl; repeat constructor; assumption.
Qed.

Lemma Subseq_map {B : Type} (f : A -> B) (l l' : list A) :
  Subseq l l' -> Subseq (map f l) (map f l').
Proof.
  induction 1; simpl; constructor; assumption.
Qed.

End Subsequences.

(** ** AttributeMapper *)

Section AttributeMapper.

Import ComparisonManager.

Variable env : Env.t.

Local Abbreviation toLowerCase := (Env.toLowerCase env).

Ltac split_if :=
  repeat match goal with
         | |- context [if ?b then _ else _] => destruct b eqn:?
         end.

Lemma mapWindowType_canonical s : In (mapWindowType env s) windowTypes.
Proof.
  unfold mapWindowType, windowTypes. split_if; simpl; tauto.
Qed.

Lemma mapMaterial_canonical s : In (mapMaterial env s) materials.
Proof.
  unfold mapMaterial, materials. split_if; simpl; tauto.
Qed.

Lemma mapGlassType_canonical s : In (mapGlassType env s) glassTypes.
Proof.
  unfold mapGlassType, glassTypes. split_if; simpl; tauto.
Qed.

Ltac no_keyword H :=
  unfold mentions in H; simpl in H;
  repeat match type of H with
         | (_ || _)%bool = false =>
             let H1 := fresh "K" in
             apply orb_false_elim in H; destruct H as [H1 H]
         end.

Lemma mapWindowType_default s :
  mentions (toLowerCase s) windowKeywords = false ->
  mapWindowType env s = js "double-hung".
Proof.
  intros H. no_keyword H. unfold mapWindowType.
  rewrite K, K0, K1, K2, K3, K4, K5, K6, K7, K8, K9. reflexivity.
Qed.

Lemma mapMaterial_default s :
  mentions (toLowerCase s) materialKeywords = false ->
  mapMaterial env s = js "vinyl".
Proof.
  intros H. no_keyword H. unfold mapMaterial.
  rewrite K, K0, K1, K2, K3. reflexivity.
Qed.

Lemma mapGlassType_default s :
  mentions (toLowerCase s) glassKeywords = false ->
  mapGlassType env s = js "double-pane".
Proof.
  intros H. no_keyword H. unfold mapGlassType.
  rewrite K, K0, K1, K2, K3, K4. reflexivity.
Qed.

(** C4. For every string, each of the three mappers returns one of its
    canonical values (it is a total function, so it never fails), and a string
    that carries none of the mapper's keywords is sent to the default:
    double-hung, vinyl and double-pane. *)
Theorem mappers_total (productName materialType description : jsstring) :
  (In (mapWindowType env productName) windowTypes
   /\ In (mapMaterial env materialType) materials
   /\ In (mapGlassType env description) glassTypes)
  /\ ((mentions (toLowerCase productName) windowKeywords = false ->
       mapWindowType env productName = js "double-hung")
      /\ (mentions (toLowerCase materialType) materialKeywords = false ->
          mapMaterial env materialType = js "vinyl")
      /\ (mentions (toLowerCase description) glassKeywords = false ->
          mapGlassType env description = js "double-pane")).
Proof.
  split; [split; [|split]|split; [|split]].
  - apply mapWindowType_canonical.
  - apply mapMaterial_canonical.
  - apply mapGlassType_canonical.
  - apply mapWindowType_default.
  - apply mapMaterial_default.
  - apply mapGlassType_default.
Qed.

End AttributeMapper.

(** ** OptionExtractor *)

Section OptionExtractor.

Import ComparisonManager.

Lemma pushIf_Subseq re label description (l l' : list jsstring) :
  Subseq l l' -> Subseq (pushIf re label description l) (l' ++ [js label]).
Proof.
  intros H. unfold pushIf. destruct (test re description).
  - apply Subseq_app_keep, H.
  - apply Subseq_app_skip, H.
Qed.

Lemma featureLabels_NoDup : NoDup featureLabels.
Proof.
  unfold featureLabels. simpl.
  repeat (constructor; [simpl; intuition discriminate|]).
  constructor.
Qed.

Lemma extractOptions_options_Subseq description :
  Subseq (extractOptions_options description) featureLabels.
Proof.
  unfold extractOptions_options.
  change featureLabels with
    (((((((([] ++ [js "Low-E Glass"]) ++ [js "Argon Gas"]) ++ [js "ENERGY STAR"])
          ++ [js "Tempered Glass"]) ++ [js "Grids"]) ++ [js "Screens"])
       ++ [js "Tilt Feature"])).
  repeat apply pushIf_Subseq. constructor.
Qed.

(** C5. For every description, the array [extractOptions] builds is the fixed
    list Low-E Glass, Argon Gas, ENERGY STAR, Tempered Glass, Grids, Screens,
    Tilt Feature with some labels left out: the labels it holds come in that
    order and none comes twice, whatever the order of the words in the
    description.  The function keeps this list until it returns, and what it
    returns, and the comparison item stores, is the list joined with a comma
    and a space. *)
Theorem extractOptions_fixed_order (description : jsstring) :
  Subseq (extractOptions_options description) featureLabels
  /\ NoDup (extractOptions_options description)
  /\ extractOptions description
     = join (js ", ") (extractOptions_options description).
Proof.
  split; [|split].
  - apply extractOptions_options_Subseq.
  - eapply Subseq_NoDup.
    + apply extractOptions_options_Subseq.
    + apply featureLabels_NoDup.
  - reflexivity.
Qed.

Example extractOptions_any_input_order :
  extractOptions_options (js "Screens, tilt latch, ARGON fill, Low-E")
  = map js ["Low-E Glass"; "Argon Gas"; "Screens"; "Tilt Feature"]%string
  /\ extractOptions (js "Screens, tilt latch, ARGON fill, Low-E")
     = js "Low-E Glass, Argon Gas, Screens, Tilt Feature".
Proof. split; reflexivity. Qed.

End OptionExtractor.

(** ** QuoteTextParser *)

Section QuoteTextParser.

Import QuoteText.

Variable Date_parse : jsstring -> option JSDate.
Variable Number_toString : float -> jsstring.

(** When none of the searches finds a match, nothing is extracted. *)
Lemma parseQuoteText_no_match (text : jsstring) :
  Forall (fun re => test re text = false)
    [re_quote; re_quoteNumber; re_estimate; re_dateLabel; re_dateBare;
     re_total; re_grandTotal; re_amountDue; re_dimensions] ->
  parseQuoteText Date_parse Number_toString text = defaults.
Proof.
  intros Hall.
  repeat match type of Hall with
         | Forall _ (_ :: _) =>
             let H := fresh "N" in
             inversion Hall as [|? ? H Hall']; subst; clear Hall;
             rename Hall' into Hall; apply test_false in H
         end.
  unfold parseQuoteText, defaults.
  repeat match goal with
         | H : exec _ text = None |- _ =>
             first [ rewrite (matchAll_none _ _ H) | rewrite H ]; clear H
         end.
  reflexivity.
Qed.


(** A line of nothing but dimensions and a price gets a description made of
    its dimensions. *)
Example parseQuoteText_synthesized_description :
  map description
    (QuoteText.items
       (parseQuoteText Date_parse Number.toString (js "36.50 x 60 $450.00")))
  = [js "36.5" ++ [34; 32; times_sign; 32]%N ++ js "60" ++ 34%N :: js " Window"].
Proof. vm_compute. reflexivity. Qed.

(** A text without any digit is such a text. *)
Lemma plain_text_is_defaults :
  parseQuoteText Date_parse Number_toString
    (js "Thank you for choosing our windows") = defaults.
Proof. vm_compute. reflexivity. Qed.

(** C6. The text of the dimension round trip is parsed to the quote number
    AB-1234, to March 15, 2024 (for a host whose [Date] reads 03/15/2024 so),
    to the total 450.00 and to exactly one item of width 36, height 60,
    quantity 1, unit price 450.00, total price 450.00 and confidence 0.8; the
    labels [extractOptions] finds in the description of that item include
    Low-E Glass and Argon Gas. *)
Theorem parseQuoteText_round_trip :
  Date_parse (js "03/15/2024") = Some march_15_2024 ->
  parseQuoteText Date_parse Number_toString sampleQuote
  = {| quoteNumber := js "AB-1234";
       quoteDate := Some march_15_2024;
       totalAmount := 450%float;
       items := [ {| widthInches := 36%float;
                     heightInches := 60%float;
                     description := js "Low-E Argon";
                     quantity := 1%float;
                     unitPrice := 450%float;
                     totalPrice := 450%float;
                     confidenceScore := 0.8%float |} ] |}
  /\ In (js "Low-E Glass")
        (ComparisonManager.extractOptions_options (js "Low-E Argon"))
  /\ In (js "Argon Gas")
        (ComparisonManager.extractOptions_options (js "Low-E Argon"))
  /\ ComparisonManager.extractOptions (js "Low-E Argon")
     = js "Low-E Glass, Argon Gas".
Proof.
  intros Hdate. split; [|split; [|split]].
  - unfold parseQuoteText.
    replace (orElse (exec re_dateLabel sampleQuote) (exec re_dateBare sampleQuote))
      with (Some {| index := 15; matched := js "Date: 03/15/2024";
                    groups := [(1, js "03/15/2024")];
                    after := skipn 31 sampleQuote |})
      by (vm_compute; reflexivity).
    change (group 1 _) with (js "03/15/2024") at 2.
    rewrite Hdate. vm_compute. reflexivity.
  - vm_compute. left. reflexivity.
  - vm_compute. right. left. reflexivity.
  - vm_compute. reflexivity.
Qed.

(** C10. The division of the price by the quantity is not guarded: on a line
    that carries the token qty 0, or quantity 0, [parseQuoteText] returns an
    item whose quantity is 0 and whose unit price is the extracted price
    divided by zero, which is Infinity; the item does not have a quantity of
    at least 1. *)
Theorem parseQuoteText_zero_quantity :
  forall text,
    In text [js "36 x 60 Window qty 0 $450.00";
             js "36 x 60 Window quantity 0 $450.00"] ->
    exists item,
      QuoteText.items (parseQuoteText Date_parse Number_toString text) = [item]
      /\ quantity item = 0%float
      /\ totalPrice item = 450%float
      /\ unitPrice item = PrimFloat.div (totalPrice item) (quantity item)
      /\ unitPrice item = infinity
      /\ PrimFloat.leb 1 (quantity item) = false.
Proof.
  intros text [<-|[<-|[]]].
  - eexists. split; [vm_compute; reflexivity|]. repeat split.
  - eexists. split; [vm_compute; reflexivity|]. repeat split.
Qed.

Ltac needs_digit :=
  cbv [seqs Plus Opt Range Times UpTo Nat.sub d
       re_quote re_quoteNumber re_estimate re_dateLabel re_dateBare re_total
       re_grandTotal re_amountDue re_dimensions
       token dateToken labelledAmount amount number];
  repeat first
    [ apply NeedsDigit_Chr; intros c Hc; exact Hc
    | apply NeedsDigit_Group
    | apply NeedsDigit_Seq_l; solve [needs_digit]
    | apply NeedsDigit_Seq_r ].

Lemma patterns_need_digit :
  Forall NeedsDigit
    [re_quote; re_quoteNumber; re_estimate; re_dateLabel; re_dateBare;
     re_total; re_grandTotal; re_amountDue; re_dimensions].
Proof.
  repeat (apply Forall_cons; [solve [needs_digit]|]).
  apply Forall_nil.
Qed.

(** In particular a text without any digit is parsed to the defaults: each
    of the patterns needs a digit to match. *)
Corollary parseQuoteText_digitFree (text : jsstring) :
  digitFree text ->
  parseQuoteText Date_parse Number_toString text = defaults.
Proof.
  intros Hs. apply parseQuoteText_no_match.
  eapply Forall_impl; [|exact patterns_need_digit].
  intros re Hre. apply test_false. apply NeedsDigit_exec; assumption.
Qed.

End QuoteTextParser.

Lemma parseQuoteText_round_trip_witness :
  QuoteText.Date_parse_mdy (js "03/15/2024") = Some march_15_2024
  /\ QuoteText.items
       (QuoteText.parseQuoteText QuoteText.Date_parse_mdy
          Number.toString sampleQuote)
     = [ {| QuoteText.widthInches := 36%float;
            QuoteText.heightInches := 60%float;
            QuoteText.description := js "Low-E Argon";
            QuoteText.quantity := 1%float;
            QuoteText.unitPrice := 450%float;
            QuoteText.totalPrice := 450%float;
            QuoteText.confidenceScore := 0.8%float |} ].
Proof.
  split; [reflexivity|].
  rewrite (proj1 (parseQuoteText_round_trip QuoteText.Date_parse_mdy
                    Number.toString eq_refl)).
  reflexivity.
Defined.

Lemma parseQuoteText_zero_quantity_witness :
  In (js "36 x 60 Window qty 0 $450.00")
     [js "36 x 60 Window qty 0 $450.00";
      js "36 x 60 Window quantity 0 $450.00"]
  /\ exists item,
       QuoteText.items
         (QuoteText.parseQuoteText QuoteText.Date_parse_mdy
            Number.toString
            (js "36 x 60 Window qty 0 $450.00")) = [item]
       /\ QuoteText.quantity item = 0%float
       /\ QuoteText.totalPrice item = 450%float
       /\ QuoteText.unitPrice item
          = PrimFloat.div (QuoteText.totalPrice item) (QuoteText.quantity item)
       /\ QuoteText.unitPrice item = infinity
       /\ PrimFloat.leb 1 (QuoteText.quantity item) = false.
Proof.
  split; [left; reflexivity|].
  apply (parseQuoteText_zero_quantity QuoteText.Date_parse_mdy
           Number.toString
           (js "36 x 60 Window qty 0 $450.00")).
  left. reflexivity.
Defined.


(** ** Running computations *)

Section Running.

Context {A B : Type}.

Lemma bind_Ok (m : M A) (f : A -> M B) w a w1 :
  m w = (Ok a, w1) -> bind m f w = f a w1.
Proof. intros H. unfold bind. rewrite H. reflexivity. Qed.

Lemma bind_Err (m : M A) (f : A -> M B) w e w1 :
  m w = (Err e, w1) -> bind m f w = (Err e, w1).
Proof. intros H. unfold bind. rewrite H. reflexivity. Qed.

Lemma bind_Ok_inv (m : M A) (f : A -> M B) w b w' :
  bind m f w = (Ok b, w') ->
  exists a w1, m w = (Ok a, w1) /\ f a w1 = (Ok b, w').
Proof.
  unfold bind. destruct (m w) as [[a|e] w1]; intros H.
  - exists a, w1. split; [reflexivity|exact H].
  - discriminate.
Qed.

Lemma try_catch_Ok (m : M A) h w a w1 :
  m w = (Ok a, w1) -> try_catch m h w = (Ok a, w1).
Proof. intros H. unfold try_catch. rewrite H. reflexivity. Qed.

Lemma try_catch_Err (m : M A) h w e w1 :
  m w = (Err e, w1) -> try_catch m h w = h e w1.
Proof. intros H. unfold try_catch. rewrite H. reflexivity. Qed.

(** A handler that always rethrows lets only the results of the body out. *)
Lemma try_catch_rethrow_inv (m : M A) (h : exn -> M A) w a w' :
  (forall e w0, exists e' w1, h e w0 = (Err e', w1)) ->
  try_catch m h w = (Ok a, w') -> m w = (Ok a, w').
Proof.
  intros Hh. unfold try_catch. destruct (m w) as [[a0|e] w1]; intros H.
  - exact H.
  - destruct (Hh e w1) as (e' & w2 & He). rewrite He in H. discriminate.
Qed.

End Running.

Lemma storeCall_keeps w r w' :
  storeCall w = (r, w') -> sameDocuments w w'.
Proof.
  unfold storeCall, sameDocuments. destruct (faults w) as [|[|] f]; intros H;
    inversion H; subst; simpl; repeat split.
Qed.

Lemma storeCall_no_fault w : faults w = [] -> storeCall w = (Ok tt, w).
Proof. intros H. unfold storeCall. rewrite H. reflexivity. Qed.

(** ** Floating-point multiplication commutes *)



(** ** PriceCalculationAdapter *)

Section PriceCalculationAdapter.

Import ComparisonManager.

Variable env : Env.t.

Lemma calculateWarnkePrice_priced quoteItem p calculation w :
  pricingCall env quoteItem p = Ok calculation ->
  calculateWarnkePrice env quoteItem (Some p) w
  = (Ok {| PriceResult.totalPrice := Calculation.totalPrice calculation;
           PriceResult.pricePerWindow := Calculation.pricePerWindow calculation;
           PriceResult.basePrice := Calculation.basePrice calculation;
           PriceResult.optionsPrice := Calculation.optionsPrice calculation;
           PriceResult.options :=
             {| Options.windowType := mapWindowType env (Product.productName p);
                Options.material := mapMaterial env (Product.materialType p);
                Options.glassType :=
                  mapGlassType env (QuoteItem.description quoteItem) |} |}, w).
Proof.
  unfold pricingCall, calculateWarnkePrice, try_catch, bind, deref, ret, of_result.
  intros H. rewrite H. reflexivity.
Qed.

Lemma calculateWarnkePrice_fallen_back quoteItem p e w :
  pricingCall env quoteItem p = Err e ->
  calculateWarnkePrice env quoteItem (Some p) w
  = (Ok {| PriceResult.totalPrice :=
             PrimFloat.mul (QuoteItem.quantity quoteItem) (Product.basePrice p);
           PriceResult.pricePerWindow := Product.basePrice p;
           PriceResult.basePrice := Product.basePrice p;
           PriceResult.optionsPrice := 0%float;
           PriceResult.options := defaultOptions |}, fallbackNote w).
Proof.
  unfold pricingCall, calculateWarnkePrice, try_catch, bind, deref, ret, of_result,
    raise.
  intros H. rewrite H. reflexivity.
Qed.

(** With a product at hand the price computation always returns. *)
Lemma calculateWarnkePrice_returns quoteItem p w :
  exists r w', calculateWarnkePrice env quoteItem (Some p) w = (Ok r, w').
Proof.
  destruct (pricingCall env quoteItem p) as [calculation|e] eqn:H.
  - eexists _, _. apply calculateWarnkePrice_priced, H.
  - eexists _, _. eapply calculateWarnkePrice_fallen_back, H.
Qed.

(** Without one, the fallback raises in its turn. *)
Lemma calculateWarnkePrice_no_product quoteItem w :
  calculateWarnkePrice env quoteItem None w = (Err TypeError, fallbackNote w).
Proof. reflexivity. Qed.

Lemma calculateWarnkePrice_raises_inv quoteItem matchedProduct w e w' :
  calculateWarnkePrice env quoteItem matchedProduct w = (Err e, w') ->
  matchedProduct = None.
Proof.
  destruct matchedProduct as [p|]; [|reflexivity].
  destruct (calculateWarnkePrice_returns quoteItem p w) as (r & w1 & H).
  rewrite H. discriminate.
Qed.


End PriceCalculationAdapter.

(** ** The store *)

Tactic Notation "bind_inv" hyp(H) "as" ident(a) ident(w) ident(Ha) :=
  apply bind_Ok_inv in H; destruct H as (a & w & Ha & H).

Lemma sameDocuments_refl w : sameDocuments w w.
Proof. repeat split. Qed.

Lemma sameDocuments_trans w1 w2 w3 :
  sameDocuments w1 w2 -> sameDocuments w2 w3 -> sameDocuments w1 w3.
Proof.
  unfold sameDocuments. intros (?&?&?&?&?) (?&?&?&?&?).
  repeat split; congruence.
Qed.

Lemma printed_sameDocuments message w : sameDocuments w (printed message w).
Proof. repeat split. Qed.

Lemma createDocument_COMPARISONS_inv doc w c w' :
  createDocument_COMPARISONS doc w = (Ok c, w') -> c = doc.
Proof.
  unfold createDocument_COMPARISONS, bind, storeCall, modify, ret.
  destruct (faults w) as [|[|] f]; intros H; inversion H; reflexivity.
Qed.

Lemma createDocument_COMPARISON_ITEMS_inv doc w c w' :
  createDocument_COMPARISON_ITEMS doc w = (Ok c, w') -> c = doc.
Proof.
  unfold createDocument_COMPARISON_ITEMS, bind, storeCall, modify, ret.
  destruct (faults w) as [|[|] f]; intros H; inversion H; reflexivity.
Qed.

Lemma updateDocument_COMPARISONS_inv doc w c w' :
  updateDocument_COMPARISONS doc w = (Ok c, w') -> c = doc.
Proof.
  unfold updateDocument_COMPARISONS, bind, storeCall, modify, ret, get, raise.
  destruct (faults w) as [|[|] f]; simpl;
    try match goal with
        | |- context [replace ?f ?d ?l] => destruct (replace f d l)
        end;
    intros H; inversion H; reflexivity.
Qed.

Lemma replace_found {A} (same : A -> bool) (doc x : A) (l : list A) :
  same x = true -> exists l', replace same doc (l ++ [x]) = Some l'.
Proof.
  intros Hx. induction l as [|y l (l' & IH)]; simpl.
  - rewrite Hx. eexists. reflexivity.
  - destruct (same y); [eexists; reflexivity|].
    rewrite IH. eexists. reflexivity.
Qed.

Lemma getQuoteDetails_inv quoteId w quote w' :
  QuoteManager.getQuoteDetails quoteId w = (Ok quote, w') ->
  quoteOf quoteId w = Some quote /\ sameDocuments w w'.
Proof.
  unfold QuoteManager.getQuoteDetails. intros H.
  apply try_catch_rethrow_inv in H;
    [|intros; eexists _, _; reflexivity].
  unfold getDocument_QUOTES in H.
  bind_inv H as found w1 Hget. bind_inv Hget as u w0 Hcall.
  apply storeCall_keeps in Hcall. unfold get in Hget. inversion Hget; subst.
  destruct Hcall as (Hq & Hrest).
  unfold quoteOf. rewrite <- Hq.
  destruct (find _ (quotes w1)) as [q|]; inversion H; subst.
  split; [reflexivity|]. split; assumption.
Qed.

Lemma getQuoteItems_inv quoteId w l w' :
  QuoteManager.getQuoteItems quoteId w = (Ok l, w') ->
  l = itemsOf quoteId w /\ sameDocuments w w'.
Proof.
  unfold QuoteManager.getQuoteItems. intros H.
  apply try_catch_rethrow_inv in H;
    [|intros; eexists _, _; reflexivity].
  unfold query_QUOTE_ITEMS in H. bind_inv H as u w1 Hcall.
  apply storeCall_keeps in Hcall. unfold get in H. inversion H; subst.
  destruct Hcall as (Hq & Hi & Hrest).
  unfold itemsOf. rewrite <- Hi. split; [reflexivity|].
  split; [|split]; assumption.
Qed.

Lemma settle_inv {A} (m : M A) w r w' :
  settle m w = (Ok r, w') -> m w = (r, w').
Proof.
  unfold settle. destruct (m w) as [r0 w0]. intros H. inversion H. reflexivity.
Qed.

Lemma of_result_inv {A} (r : result A) w a w' :
  of_result r w = (Ok a, w') -> r = Ok a /\ w' = w.
Proof.
  destruct r; simpl; unfold ret, raise; intros H; inversion H.
  split; reflexivity.
Qed.

(** ** ComparisonAssembler *)

Section ComparisonAssembler.

Import ComparisonManager.

Variable env : Env.t.

(** What one quote item makes of the array: a new last item, or nothing
    but a line on the console. *)
Lemma generateComparisonItems_from_created acc cid q rest products w c w1 :
  createComparisonItem env cid products q w = (Ok c, w1) ->
  generateComparisonItems_from env acc cid (q :: rest) products w
  = generateComparisonItems_from env (acc ++ [c]) cid rest products w1.
Proof.
  intros H. simpl. unfold bind at 1, try_catch, bind at 1. rewrite H.
  reflexivity.
Qed.

Lemma generateComparisonItems_from_skipped acc cid q rest products w e w1 :
  createComparisonItem env cid products q w = (Err e, w1) ->
  generateComparisonItems_from env acc cid (q :: rest) products w
  = generateComparisonItems_from env acc cid rest products (itemNote w1).
Proof.
  intros H. simpl. unfold bind at 1, try_catch, bind at 1. rewrite H.
  reflexivity.
Qed.

Lemma createComparisonItem_madeFor cid products q w c w' :
  createComparisonItem env cid products q w = (Ok c, w') -> madeFor c q.
Proof.
  unfold createComparisonItem. intros H.
  bind_inv H as matchedProduct w1 H1. bind_inv H as priceCalculation w2 H2.
  bind_inv H as p w3 H3. bind_inv H as id w4 H4.
  apply createDocument_COMPARISON_ITEMS_inv in H. subst c.
  repeat split.
Qed.

(** The loop never raises; what it adds to the array was made, in order,
    for quote items taken in order from the list. *)
Lemma generateComparisonItems_from_spec cid products quoteItems :
  forall acc w,
  exists l kept w',
    generateComparisonItems_from env acc cid quoteItems products w
    = (Ok (acc ++ l), w')
    /\ Subseq kept quoteItems
    /\ Forall2 madeFor l kept.
Proof.
  induction quoteItems as [|q rest IH]; intros acc w.
  - exists [], [], w. rewrite app_nil_r. repeat constructor.
  - destruct (createComparisonItem env cid products q w) as [[c|e] w1] eqn:Hq.
    + rewrite (generateComparisonItems_from_created _ _ _ _ _ _ _ _ Hq).
      destruct (IH (acc ++ [c]) w1) as (l & kept & w' & Hrun & Hsub & Hall).
      exists (c :: l), (q :: kept), w'. split; [|split].
      * rewrite Hrun, <- app_assoc. reflexivity.
      * constructor. exact Hsub.
      * constructor; [|exact Hall].
        eapply createComparisonItem_madeFor, Hq.
    + rewrite (generateComparisonItems_from_skipped _ _ _ _ _ _ _ _ Hq).
      destruct (IH acc (itemNote w1)) as (l & kept & w' & Hrun & Hsub & Hall).
      exists l, kept, w'. split; [|split].
      * exact Hrun.
      * constructor. exact Hsub.
      * exact Hall.
Qed.

Lemma generateComparisonItems_spec cid products quoteItems w :
  exists l kept w',
    generateComparisonItems env cid quoteItems products w = (Ok l, w')
    /\ Subseq kept quoteItems
    /\ Forall2 madeFor l kept.
Proof.
  apply (generateComparisonItems_from_spec cid products quoteItems [] w).
Qed.

Lemma readAll_inv quoteId w quote quoteItems products w' :
  readAll quoteId w = (Ok (quote, quoteItems, products), w') ->
  quoteOf quoteId w = Some quote /\ quoteItems = itemsOf quoteId w.
Proof.
  unfold readAll. intros H.
  bind_inv H as r1 w1 H1. bind_inv H as r2 w2 H2. bind_inv H as r3 w3 H3.
  bind_inv H as q w4 H4. bind_inv H as l w5 H5. bind_inv H as c w6 H6.
  apply of_result_inv in H4, H5, H6.
  destruct H4 as [-> ->], H5 as [-> ->], H6 as [-> ->].
  unfold ret in H. inversion H; subst.
  apply settle_inv in H1, H2.
  apply getQuoteDetails_inv in H1. destruct H1 as (Hq & Hsame).
  apply getQuoteItems_inv in H2. destruct H2 as (Hi & _).
  split; [exact Hq|].
  rewrite Hi. unfold itemsOf. destruct Hsame as (_ & -> & _). reflexivity.
Qed.

(** What a call of [generateComparison] that returns has done. *)
Lemma generateComparison_inv quoteId projectId w g w' :
  generateComparison env quoteId projectId w = (Ok g, w') ->
  exists quote products id w1 w2,
    quoteOf quoteId w = Some quote
    /\ generateComparisonItems env id (itemsOf quoteId w) products w1
       = (Ok (items g), w2)
    /\ comparison g
       = {| Comparison.comparisonId := id;
            Comparison.projectId := projectId;
            Comparison.quoteId := quoteId;
            Comparison.competitorName := Quote.competitorName quote;
            Comparison.totalCompetitorPrice := Quote.totalAmount quote;
            Comparison.totalWarnkePrice := sumWarnkePrice (items g);
            Comparison.savingsAmount :=
              PrimFloat.sub (Quote.totalAmount quote) (sumWarnkePrice (items g));
            Comparison.savingsPercentage :=
              (if PrimFloat.ltb 0 (Quote.totalAmount quote)
               then PrimFloat.mul
                      (PrimFloat.div
                         (PrimFloat.sub (Quote.totalAmount quote)
                            (sumWarnkePrice (items g)))
                         (Quote.totalAmount quote)) 100
               else 0)%float;
            Comparison.status := "generated" |}.
Proof.
  unfold generateComparison. intros H.
  apply try_catch_rethrow_inv in H;
    [|intros; eexists _, _; reflexivity].
  bind_inv H as read w1 Hread. destruct read as [[quote quoteItems] products].
  apply readAll_inv in Hread. destruct Hread as (Hq & ->).
  bind_inv H as id w2 Hid. bind_inv H as created w3 Hcreate.
  apply createDocument_COMPARISONS_inv in Hcreate. subst created.
  bind_inv H as comparisonItems w4 Hitems. bind_inv H as updated w5 Hupdate.
  apply updateDocument_COMPARISONS_inv in Hupdate. subst updated.
  unfold ret in H. inversion H; subst. simpl in *.
  exists quote, products, id, w3, w4.
  split; [exact Hq|]. split; [exact Hitems|]. reflexivity.
Qed.

Lemma createDocument_COMPARISON_ITEMS_run doc w :
  faults w = [] ->
  createDocument_COMPARISON_ITEMS doc w
  = (Ok doc, set_comparisonItems (comparisonItems w ++ [doc]) w).
Proof.
  intros Hf. unfold createDocument_COMPARISON_ITEMS, bind, storeCall.
  rewrite Hf. reflexivity.
Qed.

(** Without store faults, a quote item that is matched to a product gets its
    comparison item. *)
Lemma createComparisonItem_run cid products q p w :
  faults w = [] ->
  Env.matchProduct env q products = Ok (Some p) ->
  exists c w',
    createComparisonItem env cid products q w = (Ok c, w')
    /\ faults w' = [] /\ comparisons w' = comparisons w.
Proof.
  intros Hf Hm. unfold createComparisonItem.
  unfold bind at 1. rewrite Hm. simpl.
  destruct (pricingCall env q p) as [calculation|e] eqn:Hp.
  - unfold bind at 1.
    rewrite (calculateWarnkePrice_priced env q p calculation w Hp).
    unfold bind, deref, ret, generateId.
    rewrite createDocument_COMPARISON_ITEMS_run by exact Hf.
    eexists _, _. split; [reflexivity|]. split; [exact Hf|reflexivity].
  - unfold bind at 1.
    rewrite (calculateWarnkePrice_fallen_back env q p e w Hp).
    unfold bind, deref, ret, generateId.
    rewrite createDocument_COMPARISON_ITEMS_run by exact Hf.
    eexists _, _. split; [reflexivity|]. split; [exact Hf|reflexivity].
Qed.

(** A quote item for which the matcher returns nothing gets none: the price
    computation raises. *)
Lemma createComparisonItem_no_product cid products q w :
  Env.matchProduct env q products = Ok None ->
  createComparisonItem env cid products q w = (Err TypeError, fallbackNote w).
Proof.
  intros Hm. unfold createComparisonItem.
  unfold bind at 1. rewrite Hm. reflexivity.
Qed.

Lemma getQuoteDetails_run quoteId w quote :
  faults w = [] ->
  quoteOf quoteId w = Some quote ->
  QuoteManager.getQuoteDetails quoteId w = (Ok quote, w).
Proof.
  intros Hf Hq.
  unfold QuoteManager.getQuoteDetails, getDocument_QUOTES, try_catch, bind,
    storeCall, get.
  rewrite Hf. unfold quoteOf in Hq. rewrite Hq. reflexivity.
Qed.

Lemma getQuoteItems_run quoteId w :
  faults w = [] ->
  QuoteManager.getQuoteItems quoteId w = (Ok (itemsOf quoteId w), w).
Proof.
  intros Hf.
  unfold QuoteManager.getQuoteItems, query_QUOTE_ITEMS, try_catch, bind,
    storeCall, get.
  rewrite Hf. reflexivity.
Qed.

Lemma getProducts_run w :
  faults w = [] -> getProducts w = (Ok (products w), w).
Proof.
  intros Hf. unfold getProducts, bind, storeCall, get.
  rewrite Hf. reflexivity.
Qed.

Lemma readAll_run quoteId w quote :
  faults w = [] ->
  quoteOf quoteId w = Some quote ->
  readAll quoteId w = (Ok (quote, itemsOf quoteId w, products w), w).
Proof.
  intros Hf Hq. unfold readAll, settle.
  unfold bind at 1. rewrite (getQuoteDetails_run quoteId w quote Hf Hq).
  unfold bind at 1. rewrite (getQuoteItems_run quoteId w Hf).
  unfold bind at 1. rewrite (getProducts_run w Hf).
  reflexivity.
Qed.

Lemma createDocument_COMPARISONS_run doc w :
  faults w = [] ->
  createDocument_COMPARISONS doc w
  = (Ok doc, set_comparisons (comparisons w ++ [doc]) w).
Proof.
  intros Hf. unfold createDocument_COMPARISONS, bind, storeCall.
  rewrite Hf. reflexivity.
Qed.

Lemma updateDocument_COMPARISONS_run doc w l x :
  faults w = [] ->
  comparisons w = l ++ [x] ->
  Comparison.comparisonId x = Comparison.comparisonId doc ->
  exists w', updateDocument_COMPARISONS doc w = (Ok doc, w').
Proof.
  intros Hf Hc Hx.
  destruct (replace_found
              (fun c => Nat.eqb (Comparison.comparisonId c)
                          (Comparison.comparisonId doc)) doc x l) as (l' & Hl).
  { rewrite Hx. apply Nat.eqb_refl. }
  unfold updateDocument_COMPARISONS, bind, storeCall, get.
  rewrite Hf, Hc, Hl. eexists. reflexivity.
Qed.

Lemma sumWarnkePrice_map l :
  sumWarnkePrice l
  = fold_left PrimFloat.add (map ComparisonItem.warnkePrice l) 0%float.
Proof.
  unfold sumWarnkePrice. generalize 0%float.
  induction l as [|c l IH]; intros z; simpl; [reflexivity|apply IH].
Qed.

(** C1. The comparison a call of [generateComparison] returns has, as total
    competitor price, the total amount of the quote it was made from; as total
    equivalent price, the sum of the equivalent prices of the comparison items
    the call returns, which were made for quote items of that quote; as
    savings amount, the first minus the second; and as savings percentage,
    the savings amount over the total competitor price times 100 when that
    price is above 0, and 0 otherwise. *)
Theorem generateComparison_totals quoteId projectId w g w' :
  generateComparison env quoteId projectId w = (Ok g, w') ->
  let c := comparison g in
  exists quote kept,
    quoteOf quoteId w = Some quote
    /\ Subseq kept (itemsOf quoteId w)
    /\ Forall2 madeFor (items g) kept
    /\ Comparison.totalCompetitorPrice c = Quote.totalAmount quote
    /\ Comparison.totalWarnkePrice c
       = fold_left PrimFloat.add (map ComparisonItem.warnkePrice (items g))
           0%float
    /\ Comparison.savingsAmount c
       = PrimFloat.sub (Comparison.totalCompetitorPrice c)
           (Comparison.totalWarnkePrice c)
    /\ Comparison.savingsPercentage c
       = (if PrimFloat.ltb 0 (Comparison.totalCompetitorPrice c)
          then PrimFloat.mul
                 (PrimFloat.div (Comparison.savingsAmount c)
                    (Comparison.totalCompetitorPrice c)) 100
          else 0)%float.
Proof.
  intros H c. subst c.
  apply generateComparison_inv in H.
  destruct H as (quote & products & id & w1 & w2 & Hq & Hitems & ->).
  destruct (generateComparisonItems_spec id products (itemsOf quoteId w) w1)
    as (l & kept & w3 & Hrun & Hsub & Hall).
  rewrite Hrun in Hitems. inversion Hitems; subst.
  exists quote, kept. simpl.
  repeat (split; [first [assumption|reflexivity]|]).
  split; [apply sumWarnkePrice_map|].
  split; reflexivity.
Qed.

(** C8. For every list of quote items, the comparison items
    [generateComparisonItems] returns were made for quote items of the list
    taken in the order of the list, some being skipped; so the items a call
    of [generateComparison] returns follow the order of the items of the
    quote, whichever of them failed. *)
Theorem generateComparison_keeps_order :
  (forall cid products quoteItems w,
     exists l kept w',
       generateComparisonItems env cid quoteItems products w = (Ok l, w')
       /\ Subseq kept quoteItems
       /\ Forall2 madeFor l kept)
  /\ (forall quoteId projectId w g w',
        generateComparison env quoteId projectId w = (Ok g, w') ->
        exists kept,
          Subseq kept (itemsOf quoteId w)
          /\ Forall2 madeFor (items g) kept).
Proof.
  split.
  - apply generateComparisonItems_spec.
  - intros quoteId projectId w g w' H.
    apply generateComparison_inv in H.
    destruct H as (quote & products & id & w1 & w2 & _ & Hitems & _).
    destruct (generateComparisonItems_spec id products (itemsOf quoteId w) w1)
      as (l & kept & w3 & Hrun & Hsub & Hall).
    rewrite Hrun in Hitems. inversion Hitems; subst.
    exists kept. split; assumption.
Qed.

(** C2. No error in the making of a comparison item leaves the loop:
    [generateComparisonItems] returns for every list of quote items, and an
    item whose making raises is printed and passed over, the loop going on
    with the next item and the array as it was.  And when, in a quote of
    three items read without store faults, the first and the third are
    matched to a product while the price computation of the second raises,
    [generateComparison] returns, with exactly two comparison items, made for
    the first and the third, and totals that add up the equivalent prices of
    those two. *)
Theorem generateComparison_partial_failure :
  (forall cid products quoteItems w,
     exists l w',
       generateComparisonItems env cid quoteItems products w = (Ok l, w'))
  /\ (forall acc cid products q rest w e w1,
        createComparisonItem env cid products q w = (Err e, w1) ->
        generateComparisonItems_from env acc cid (q :: rest) products w
        = generateComparisonItems_from env acc cid rest products (itemNote w1))
  /\ (forall quoteId projectId w quote q1 q2 q3 p1 m2 p3,
        faults w = [] ->
        quoteOf quoteId w = Some quote ->
        itemsOf quoteId w = [q1; q2; q3] ->
        Env.matchProduct env q1 (products w) = Ok (Some p1) ->
        Env.matchProduct env q2 (products w) = Ok m2 ->
        (exists w0 e w1, calculateWarnkePrice env q2 m2 w0 = (Err e, w1)) ->
        Env.matchProduct env q3 (products w) = Ok (Some p3) ->
        exists c c1 c3 w',
          generateComparison env quoteId projectId w
          = (Ok {| comparison := c; items := [c1; c3] |}, w')
          /\ madeFor c1 q1 /\ madeFor c3 q3
          /\ Comparison.totalWarnkePrice c
             = PrimFloat.add
                 (PrimFloat.add 0 (ComparisonItem.warnkePrice c1))
                 (ComparisonItem.warnkePrice c3)
          /\ Comparison.savingsAmount c
             = PrimFloat.sub (Quote.totalAmount quote)
                 (Comparison.totalWarnkePrice c)).
Proof.
  split.
  - intros cid products quoteItems w.
    destruct (generateComparisonItems_spec cid products quoteItems w)
      as (l & _ & w' & H & _).
    exists l, w'. exact H.
  - split; [intros; eapply generateComparisonItems_from_skipped; eassumption|].
    intros quoteId projectId w quote q1 q2 q3 p1 m2 p3
      Hf Hq Hi Hm1 Hm2 (w0 & e & w1 & Hraise) Hm3.
    apply calculateWarnkePrice_raises_inv in Hraise. subst m2.
    pose (cid := nextId w).
    pose (data :=
            {| Comparison.comparisonId := cid;
               Comparison.projectId := projectId;
               Comparison.quoteId := quoteId;
               Comparison.competitorName := Quote.competitorName quote;
               Comparison.totalCompetitorPrice := Quote.totalAmount quote;
               Comparison.totalWarnkePrice := 0%float;
               Comparison.savingsAmount := 0%float;
               Comparison.savingsPercentage := 0%float;
               Comparison.status := "generated" |}).
    pose (wa := set_comparisons (comparisons w ++ [data])
                  (set_nextId (S (nextId w)) w)).
    assert (Hfa : faults wa = []) by exact Hf.
    destruct (createComparisonItem_run cid (products w) q1 p1 wa Hfa Hm1)
      as (c1 & wb & H1 & Hfb & Hcb).
    pose proof (createComparisonItem_no_product cid (products w) q2 wb Hm2)
      as H2.
    assert (Hfc : faults (itemNote (fallbackNote wb)) = []) by exact Hfb.
    destruct (createComparisonItem_run cid (products w) q3 p3 _ Hfc Hm3)
      as (c3 & wd & H3 & Hfd & Hcd).
    assert (Hloop : generateComparisonItems env cid [q1; q2; q3] (products w) wa
                    = (Ok [c1; c3], wd)).
    { unfold generateComparisonItems.
      rewrite (generateComparisonItems_from_created _ _ _ _ _ _ _ _ H1).
      rewrite (generateComparisonItems_from_skipped _ _ _ _ _ _ _ _ H2).
      rewrite (generateComparisonItems_from_created _ _ _ _ _ _ _ _ H3).
      reflexivity. }
    pose (final :=
            {| Comparison.comparisonId := cid;
               Comparison.projectId := projectId;
               Comparison.quoteId := quoteId;
               Comparison.competitorName := Quote.competitorName quote;
               Comparison.totalCompetitorPrice := Quote.totalAmount quote;
               Comparison.totalWarnkePrice := sumWarnkePrice [c1; c3];
               Comparison.savingsAmount :=
                 PrimFloat.sub (Quote.totalAmount quote)
                   (sumWarnkePrice [c1; c3]);
               Comparison.savingsPercentage :=
                 (if PrimFloat.ltb 0 (Quote.totalAmount quote)
                  then PrimFloat.mul
                         (PrimFloat.div
                            (PrimFloat.sub (Quote.totalAmount quote)
                               (sumWarnkePrice [c1; c3]))
                            (Quote.totalAmount quote)) 100
                  else 0)%float;
               Comparison.status := "generated" |}).
    destruct (updateDocument_COMPARISONS_run final wd (comparisons w) data)
      as (we & Hupdate).
    { exact Hfd. }
    { rewrite Hcd. simpl. rewrite Hcb. reflexivity. }
    { reflexivity. }
    exists final, c1, c3, we.
    split; [|split; [|split; [|split]]].
    + unfold generateComparison.
      apply try_catch_Ok.
      rewrite (bind_Ok _ _ _ _ _ (readAll_run quoteId w quote Hf Hq)).
      rewrite Hi.
      unfold bind at 1, generateId.
      unfold bind at 1.
      rewrite createDocument_COMPARISONS_run by exact Hf.
      fold data. fold wa. simpl Comparison.comparisonId. fold cid.
      rewrite (bind_Ok _ _ _ _ _ Hloop).
      fold final.
      rewrite (bind_Ok _ _ _ _ _ Hupdate).
      reflexivity.
    + eapply createComparisonItem_madeFor, H1.
    + eapply createComparisonItem_madeFor, H3.
    + reflexivity.
    + reflexivity.
Qed.

End ComparisonAssembler.

(** ** Edits of quote items *)

Section QuoteItemEdits.

Import QuoteManager.

Lemma replace_of_find {A} (same : A -> bool) (doc x : A) (l : list A) :
  find same l = Some x -> exists l', replace same doc l = Some l'.
Proof.
  induction l as [|y l IH]; simpl; [discriminate|].
  destruct (same y); intros H.
  - eexists. reflexivity.
  - destruct (IH H) as (l' & ->). eexists. reflexivity.
Qed.

Lemma find_of_replace {A} (same : A -> bool) (doc : A) (l l' : list A) :
  same doc = true -> replace same doc l = Some l' -> find same l' = Some doc.
Proof.
  intros Hdoc. revert l'. induction l as [|y l IH]; simpl; intros l' H;
    [discriminate|].
  destruct (same y) eqn:Hy.
  - inversion H; subst. simpl. rewrite Hdoc. reflexivity.
  - destruct (replace same doc l) as [r|]; [|discriminate].
    inversion H; subst. simpl. rewrite Hy. apply IH. reflexivity.
Qed.



(** The background update of the total never raises. *)
Lemma updateQuoteTotalAmount_returns quoteId w :
  exists w', updateQuoteTotalAmount quoteId w = (Ok tt, w').
Proof.
  unfold updateQuoteTotalAmount, try_catch.
  match goal with
  | |- context [match ?m w with _ => _ end] => destruct (m w) as [[[]|e] w1]
  end.
  - eexists. reflexivity.
  - eexists. reflexivity.
Qed.







End QuoteItemEdits.

(** ** The properties at work in the sample world *)

(** The pricing engine is down: the two matched items are priced from the
    catalog, 2 x 300 and 1 x 550, and the steel door, which matches no
    product, is skipped. *)
Lemma generateComparison_totals_witness :
  exists g w',
    ComparisonManager.generateComparison Sample.env 1 7 Sample.world = (Ok g, w')
    /\ Comparison.totalCompetitorPrice (ComparisonManager.comparison g)
       = 1500%float
    /\ Comparison.totalWarnkePrice (ComparisonManager.comparison g)
       = 1150%float
    /\ Comparison.savingsAmount (ComparisonManager.comparison g) = 350%float
    /\ Comparison.savingsPercentage (ComparisonManager.comparison g)
       = PrimFloat.mul (PrimFloat.div 350 1500) 100.
Proof.
  eexists _, _. split; [vm_compute; reflexivity|].
  match goal with
  | |- context [ComparisonManager.comparison ?g] =>
      pose proof (generateComparison_totals Sample.env 1 7 Sample.world g _
                    eq_refl) as T
  end.
  cbv zeta in T.
  destruct T as (quote & kept & Hq & _ & _ & Htotal & Hsum & Hsavings & Hpct).
  vm_compute in Hq. inversion Hq; subst quote; clear Hq.
  rewrite Hpct, Hsavings, Hsum, Htotal.
  repeat split.
Defined.

Lemma generateComparison_partial_failure_witness :
  (faults Sample.world = []
   /\ quoteOf 1 Sample.world = Some Sample.quote
   /\ itemsOf 1 Sample.world = [Sample.item1; Sample.item2; Sample.item3]
   /\ ComparisonManager.calculateWarnkePrice Sample.env Sample.item2 None
        Sample.world
      = (Err TypeError, fallbackNote Sample.world))
  /\ exists c c1 c3 w',
       ComparisonManager.generateComparison Sample.env 1 7 Sample.world
       = (Ok {| ComparisonManager.comparison := c;
                ComparisonManager.items := [c1; c3] |}, w')
       /\ madeFor c1 Sample.item1 /\ madeFor c3 Sample.item3
       /\ Comparison.totalWarnkePrice c
          = PrimFloat.add (PrimFloat.add 0 (ComparisonItem.warnkePrice c1))
              (ComparisonItem.warnkePrice c3)
       /\ Comparison.savingsAmount c
          = PrimFloat.sub (Quote.totalAmount Sample.quote)
              (Comparison.totalWarnkePrice c).
Proof.
  split; [repeat split|].
  apply (proj2 (proj2 (generateComparison_partial_failure Sample.env))
           1 7 Sample.world Sample.quote Sample.item1 Sample.item2 Sample.item3
           Sample.vinylDoubleHung None Sample.woodCasement);
    try reflexivity.
  exists Sample.world, TypeError, (fallbackNote Sample.world). reflexivity.
Defined.


Lemma generateComparison_keeps_order_witness :
  exists g w',
    ComparisonManager.generateComparison Sample.env 1 7 Sample.world = (Ok g, w')
    /\ exists kept,
         Subseq kept (itemsOf 1 Sample.world)
         /\ Forall2 madeFor (ComparisonManager.items g) kept.
Proof.
  eexists _, _. split; [vm_compute; reflexivity|].
  eapply (proj2 (generateComparison_keeps_order Sample.env) 1 7 Sample.world).
  vm_compute. reflexivity.
Defined.


(** * Further properties of the two managers *)

(** ** What the making of comparison items does to the store *)

Section ComparisonItemsInStore.

Import ComparisonManager.

Variable env : Env.t.


(** It touches nothing but the console. *)
Lemma calculateWarnkePrice_world quoteItem matchedProduct w r w' :
  calculateWarnkePrice env quoteItem matchedProduct w = (r, w') ->
  w' = w \/ w' = fallbackNote w.
Proof.
  destruct matchedProduct as [p|].
  - destruct (pricingCall env quoteItem p) as [calculation|e] eqn:Hp.
    + rewrite (calculateWarnkePrice_priced env quoteItem p calculation w Hp).
      intros H. inversion H. left. reflexivity.
    + rewrite (calculateWarnkePrice_fallen_back env quoteItem p e w Hp).
      intros H. inversion H. right. reflexivity.
  - rewrite calculateWarnkePrice_no_product.
    intros H. inversion H. right. reflexivity.
Qed.

Lemma keptBut_trans a b w1 w2 w3 :
  keptBut a w1 w2 -> keptBut b w2 w3 -> keptBut (a ++ b) w1 w3.
Proof.
  unfold keptBut. intros (?&?&?&?&Hi&?) (?&?&?&?&Hi'&?).
  repeat split; try congruence.
  - rewrite Hi', Hi, app_assoc. reflexivity.
  - auto.
Qed.

Lemma createComparisonItem_store cid products q w r w' :
  createComparisonItem env cid products q w = (r, w') ->
  match r with
  | Ok c =>
      keptBut [c] w w'
      /\ ComparisonItem.comparisonId c = cid
      /\ ComparisonItem.savingsAmount c
         = PrimFloat.sub (ComparisonItem.competitorPrice c)
             (ComparisonItem.warnkePrice c)
      /\ ComparisonItem.savingsPercentage c
         = (if PrimFloat.ltb 0 (ComparisonItem.competitorPrice c)
            then PrimFloat.mul
                   (PrimFloat.div
                      (PrimFloat.sub (ComparisonItem.competitorPrice c)
                         (ComparisonItem.warnkePrice c))
                      (ComparisonItem.competitorPrice c)) 100
            else 0)%float
  | Err _ => keptBut [] w w'
  end.
Proof.
  unfold createComparisonItem. unfold bind at 1.
  destruct (Env.matchProduct env q products) as [mp|e]; simpl;
    [|intros H; inversion H; subst; unfold keptBut; rewrite app_nil_r;
      repeat split; auto].
  unfold bind at 1.
  destruct (calculateWarnkePrice env q mp w) as [[price|e] w1] eqn:Hprice.
  - assert (Hmp : exists p, mp = Some p).
    { destruct mp as [p|]; [exists p; reflexivity|].
      rewrite calculateWarnkePrice_no_product in Hprice. discriminate. }
    destruct Hmp as (p & ->).
    apply calculateWarnkePrice_world in Hprice.
    unfold bind, deref, ret, generateId, createDocument_COMPARISON_ITEMS, bind,
      storeCall, modify, ret.
    destruct Hprice as [->| ->]; simpl;
      destruct (faults w) as [|[|] f] eqn:Hf; intros H; inversion H; subst;
        unfold keptBut; simpl; rewrite ?app_nil_r;
        repeat split; auto; try discriminate; try congruence.
  - apply calculateWarnkePrice_world in Hprice.
    intros H. inversion H; subst.
    destruct Hprice as [->| ->]; unfold keptBut; simpl; rewrite app_nil_r;
      repeat split; auto.
Qed.

Lemma itemNote_keptBut w : keptBut [] w (itemNote w).
Proof. unfold keptBut. simpl. rewrite app_nil_r. repeat split; auto. Qed.

(** The loop, for any run: what it adds to the array is what it adds to the
    collection, every added item belongs to the comparison and has its
    savings computed from its two prices. *)
Lemma generateComparisonItems_from_store cid products quoteItems :
  forall acc w l w',
    generateComparisonItems_from env acc cid quoteItems products w = (Ok l, w') ->
    exists added,
      l = acc ++ added
      /\ keptBut added w w'
      /\ Forall (fun c => ComparisonItem.comparisonId c = cid) added
      /\ Forall (fun c =>
                   ComparisonItem.savingsAmount c
                   = PrimFloat.sub (ComparisonItem.competitorPrice c)
                       (ComparisonItem.warnkePrice c)
                   /\ ComparisonItem.savingsPercentage c
                      = (if PrimFloat.ltb 0 (ComparisonItem.competitorPrice c)
                         then PrimFloat.mul
                                (PrimFloat.div
                                   (PrimFloat.sub
                                      (ComparisonItem.competitorPrice c)
                                      (ComparisonItem.warnkePrice c))
                                   (ComparisonItem.competitorPrice c)) 100
                         else 0)%float) added.
Proof.
  induction quoteItems as [|q rest IH]; intros acc w l w' H.
  - simpl in H. unfold ret in H. inversion H; subst.
    exists []. rewrite app_nil_r. split; [reflexivity|].
    split; [|split; constructor].
    unfold keptBut. rewrite app_nil_r. repeat split; auto.
  - destruct (createComparisonItem env cid products q w) as [[c|e] w1] eqn:Hq.
    + rewrite (generateComparisonItems_from_created env _ _ _ _ _ _ _ _ Hq) in H.
      apply createComparisonItem_store in Hq.
      destruct Hq as (Hkept & Hcid & Hsav & Hpct).
      destruct (IH _ _ _ _ H) as (added & -> & Hkept' & Hall & Hall').
      exists (c :: added). split; [rewrite <- app_assoc; reflexivity|].
      split; [exact (keptBut_trans [c] added _ _ _ Hkept Hkept')|].
      split; constructor; auto.
    + rewrite (generateComparisonItems_from_skipped env _ _ _ _ _ _ _ _ Hq) in H.
      apply createComparisonItem_store in Hq.
      destruct (IH _ _ _ _ H) as (added & -> & Hkept' & Hall & Hall').
      exists added. split; [reflexivity|].
      split; [|split; assumption].
      apply (keptBut_trans [] added w w1 w'); [exact Hq|].
      apply (keptBut_trans [] added w1 (itemNote w1) w');
        [apply itemNote_keptBut|exact Hkept'].
Qed.

End ComparisonItemsInStore.

(** ** Lists *)

Section Lists.

Context {A : Type}.

Lemma Subseq_length (l l' : list A) :
  Subseq l l' -> (List.length l <= List.length l')%nat.
Proof. induction 1; simpl; lia. Qed.

Lemma filter_all (p : A -> bool) (l : list A) :
  Forall (fun x => p x = true) l -> filter p l = l.
Proof.
  induction 1 as [|x l Hx _ IH]; simpl; [reflexivity|].
  rewrite Hx, IH. reflexivity.
Qed.

Lemma filter_none (p : A -> bool) (l : list A) :
  Forall (fun x => p x = false) l -> filter p l = [].
Proof.
  induction 1 as [|x l Hx _ IH]; simpl; [reflexivity|].
  rewrite Hx. exact IH.
Qed.

End Lists.

(** ** Generating, then reading back *)

Section GenerateAndRead.

Import ComparisonManager ComparisonQueries.

Variable env : Env.t.

(** X2: persisted is returned.  Whatever happens to the single items, the
    comparison items [generateComparisonItems] returns are exactly the
    documents it has added, in that order, to the collection; they all carry
    the identifier of the comparison; and no other collection has changed. *)
Theorem generateComparisonItems_persisted cid catalog sourceItems w l w' :
  generateComparisonItems env cid sourceItems catalog w = (Ok l, w') ->
  comparisonItems w' = comparisonItems w ++ l
  /\ Forall (fun c => ComparisonItem.comparisonId c = cid) l
  /\ quotes w' = quotes w /\ quoteItems w' = quoteItems w
  /\ products w' = products w /\ comparisons w' = comparisons w.
Proof.
  unfold generateComparisonItems. intros H.
  apply generateComparisonItems_from_store in H.
  destruct H as (added & -> & (Hq & Hi & Hp & Hc & Hci & _) & Hall & _).
  simpl. repeat split; assumption.
Qed.

(** X3: the savings of an item.  Every comparison item that is returned has,
    as savings amount, its competitor price minus its equivalent price, and
    as savings percentage that amount over the competitor price times 100
    when the competitor price is above 0, and 0 otherwise. *)
Theorem generateComparisonItems_savings cid products quoteItems w :
  exists l w',
    generateComparisonItems env cid quoteItems products w = (Ok l, w')
    /\ Forall (fun c =>
                 ComparisonItem.savingsAmount c
                 = PrimFloat.sub (ComparisonItem.competitorPrice c)
                     (ComparisonItem.warnkePrice c)
                 /\ ComparisonItem.savingsPercentage c
                    = (if PrimFloat.ltb 0 (ComparisonItem.competitorPrice c)
                       then PrimFloat.mul
                              (PrimFloat.div
                                 (PrimFloat.sub
                                    (ComparisonItem.competitorPrice c)
                                    (ComparisonItem.warnkePrice c))
                                 (ComparisonItem.competitorPrice c)) 100
                       else 0)%float) l.
Proof.
  destruct (generateComparisonItems_spec env cid products quoteItems w)
    as (l & _ & w' & H & _).
  exists l, w'. split; [exact H|].
  unfold generateComparisonItems in H.
  apply generateComparisonItems_from_store in H.
  destruct H as (added & -> & _ & _ & Hall). exact Hall.
Qed.

Lemma updateDocument_COMPARISONS_stored doc w l x :
  faults w = [] ->
  comparisons w = l ++ [x] ->
  Comparison.comparisonId x = Comparison.comparisonId doc ->
  exists l',
    updateDocument_COMPARISONS doc w = (Ok doc, set_comparisons l' w)
    /\ find (fun c => Nat.eqb (Comparison.comparisonId c)
                        (Comparison.comparisonId doc)) l' = Some doc.
Proof.
  intros Hf Hc Hx.
  destruct (replace_found
              (fun c => Nat.eqb (Comparison.comparisonId c)
                          (Comparison.comparisonId doc)) doc x l) as (l' & Hl).
  { rewrite Hx. apply Nat.eqb_refl. }
  exists l'. split.
  - unfold updateDocument_COMPARISONS, bind, storeCall, get.
    rewrite Hf, Hc, Hl. reflexivity.
  - apply (find_of_replace _ doc (l ++ [x]) l'); [apply Nat.eqb_refl|exact Hl].
Qed.

(** A run without store faults, for a quote that exists. *)
Lemma generateComparison_faultless quoteId projectId w quote :
  faults w = [] ->
  quoteOf quoteId w = Some quote ->
  exists g w',
    generateComparison env quoteId projectId w = (Ok g, w')
    /\ Comparison.comparisonId (comparison g) = nextId w
    /\ Comparison.totalWarnkePrice (comparison g) = sumWarnkePrice (items g)
    /\ Comparison.savingsAmount (comparison g)
       = PrimFloat.sub (Quote.totalAmount quote) (sumWarnkePrice (items g))
    /\ faults w' = []
    /\ comparisonItems w' = comparisonItems w ++ items g
    /\ Forall (fun c => ComparisonItem.comparisonId c = nextId w) (items g)
    /\ find (fun c => Nat.eqb (Comparison.comparisonId c) (nextId w))
         (comparisons w') = Some (comparison g)
    /\ (exists kept,
          Subseq kept (itemsOf quoteId w) /\ Forall2 madeFor (items g) kept).
Proof.
  intros Hf Hq.
  pose (cid := nextId w).
  pose (data :=
          {| Comparison.comparisonId := cid;
             Comparison.projectId := projectId;
             Comparison.quoteId := quoteId;
             Comparison.competitorName := Quote.competitorName quote;
             Comparison.totalCompetitorPrice := Quote.totalAmount quote;
             Comparison.totalWarnkePrice := 0%float;
             Comparison.savingsAmount := 0%float;
             Comparison.savingsPercentage := 0%float;
             Comparison.status := "generated" |}).
  pose (wa := set_comparisons (comparisons w ++ [data])
                (set_nextId (S (nextId w)) w)).
  destruct (generateComparisonItems_spec env cid (products w)
              (itemsOf quoteId w) wa) as (l & kept & wd & Hloop & Hsub & Hmade).
  pose proof Hloop as Hstore. unfold generateComparisonItems in Hstore.
  apply generateComparisonItems_from_store in Hstore.
  destruct Hstore
    as (added & Hadded & (_ & _ & _ & Hcomps & Hitems & Hfaults) & Hcids & _).
  simpl in Hadded. subst added.
  assert (Hfd : faults wd = []) by (apply Hfaults; exact Hf).
  pose (final :=
          {| Comparison.comparisonId := cid;
             Comparison.projectId := projectId;
             Comparison.quoteId := quoteId;
             Comparison.competitorName := Quote.competitorName quote;
             Comparison.totalCompetitorPrice := Quote.totalAmount quote;
             Comparison.totalWarnkePrice := sumWarnkePrice l;
             Comparison.savingsAmount :=
               PrimFloat.sub (Quote.totalAmount quote) (sumWarnkePrice l);
             Comparison.savingsPercentage :=
               (if PrimFloat.ltb 0 (Quote.totalAmount quote)
                then PrimFloat.mul
                       (PrimFloat.div
                          (PrimFloat.sub (Quote.totalAmount quote)
                             (sumWarnkePrice l))
                          (Quote.totalAmount quote)) 100
                else 0)%float;
             Comparison.status := "generated" |}).
  destruct (updateDocument_COMPARISONS_stored final wd (comparisons w) data)
    as (l' & Hupdate & Hfind).
  { exact Hfd. }
  { rewrite Hcomps. reflexivity. }
  { reflexivity. }
  exists {| comparison := final; items := l |}, (set_comparisons l' wd).
  split; [|repeat split; try reflexivity; try assumption].
  - unfold generateComparison. apply try_catch_Ok.
    rewrite (bind_Ok _ _ _ _ _ (readAll_run quoteId w quote Hf Hq)).
    unfold bind at 1, generateId.
    unfold bind at 1.
    rewrite createDocument_COMPARISONS_run by exact Hf.
    fold data. fold wa. simpl Comparison.comparisonId. fold cid.
    rewrite (bind_Ok _ _ _ _ _ Hloop).
    fold final.
    rewrite (bind_Ok _ _ _ _ _ Hupdate).
    reflexivity.
  - exists kept. split; assumption.
Qed.

(** X4: only the first step is fatal.  When no store call fails and the quote
    exists, [generateComparison] returns, whatever the matcher and the pricing
    engine do, with at most one comparison item per quote item. *)
Theorem generateComparison_returns quoteId projectId w quote :
  faults w = [] ->
  quoteOf quoteId w = Some quote ->
  exists g w',
    generateComparison env quoteId projectId w = (Ok g, w')
    /\ Comparison.totalCompetitorPrice (comparison g) = Quote.totalAmount quote
    /\ (List.length (items g) <= List.length (itemsOf quoteId w))%nat.
Proof.
  intros Hf Hq.
  destruct (generateComparison_faultless quoteId projectId w quote Hf Hq)
    as (g & w' & Hrun & _ & _ & _ & _ & _ & _ & _ & kept & Hsub & Hmade).
  exists g, w'. split; [exact Hrun|]. split.
  - apply generateComparison_inv in Hrun.
    destruct Hrun as (quote' & catalog & id & w1 & w2 & Hq' & _ & Hc).
    rewrite Hc. rewrite Hq in Hq'. inversion Hq'. reflexivity.
  - rewrite (Forall2_length Hmade). apply Subseq_length, Hsub.
Qed.

(** X5: a quote without items.  For a quote that has no item the comparison
    has no item either, an equivalent total of 0, and the whole total of the
    quote as savings. *)
Theorem generateComparison_no_items quoteId projectId w quote :
  faults w = [] ->
  quoteOf quoteId w = Some quote ->
  itemsOf quoteId w = [] ->
  exists g w',
    generateComparison env quoteId projectId w = (Ok g, w')
    /\ items g = []
    /\ Comparison.totalWarnkePrice (comparison g) = 0%float
    /\ Comparison.savingsAmount (comparison g)
       = PrimFloat.sub (Quote.totalAmount quote) 0.
Proof.
  intros Hf Hq Hnone.
  destruct (generateComparison_faultless quoteId projectId w quote Hf Hq)
    as (g & w' & Hrun & _ & Htotal & Hsavings & _ & _ & _ & _
        & kept & Hsub & Hmade).
  assert (Hitems : items g = []).
  { rewrite Hnone in Hsub. inversion Hsub; subst. inversion Hmade. reflexivity. }
  exists g, w'. rewrite Htotal, Hsavings, Hitems. repeat split. exact Hrun.
Qed.

(** X6: generate, then read.  After a run without store faults,
    [getComparisonDetails] on the identifier of the returned comparison gives
    that comparison back, with its final totals; and when no comparison item
    carried that identifier before, [getComparisonItems] gives back the
    returned items, in their order. *)
Theorem generateComparison_read_back quoteId projectId w quote :
  faults w = [] ->
  quoteOf quoteId w = Some quote ->
  exists g w',
    generateComparison env quoteId projectId w = (Ok g, w')
    /\ getComparisonDetails (Comparison.comparisonId (comparison g)) w'
       = (Ok (comparison g), w')
    /\ (Forall (fun c => ComparisonItem.comparisonId c <> nextId w)
          (comparisonItems w) ->
        getComparisonItems (Comparison.comparisonId (comparison g)) w'
        = (Ok (items g), w')).
Proof.
  intros Hf Hq.
  destruct (generateComparison_faultless quoteId projectId w quote Hf Hq)
    as (g & w' & Hrun & Hid & _ & _ & Hf' & Hitems & Hcids & Hfind & _).
  exists g, w'. split; [exact Hrun|]. rewrite Hid. split.
  - unfold getComparisonDetails, getDocument_COMPARISONS, try_catch, bind,
      storeCall, get.
    rewrite Hf', Hfind. reflexivity.
  - intros Hfresh.
    unfold getComparisonItems, query_COMPARISON_ITEMS, try_catch, bind,
      storeCall, get.
    rewrite Hf', Hitems, filter_app.
    replace (filter _ (comparisonItems w)) with (@nil ComparisonItem.t).
    + simpl. rewrite filter_all; [reflexivity|].
      eapply Forall_impl; [|exact Hcids].
      intros c Hc. apply Nat.eqb_eq, Hc.
    + symmetry. apply filter_none.
      eapply Forall_impl; [|exact Hfresh].
      intros c Hc. apply Nat.eqb_neq, Hc.
Qed.

Lemma getQuoteItems_sameDocuments quoteId w r w' :
  QuoteManager.getQuoteItems quoteId w = (r, w') -> sameDocuments w w'.
Proof.
  unfold QuoteManager.getQuoteItems, query_QUOTE_ITEMS, try_catch, bind,
    storeCall, get, console_error, modify, raise.
  destruct (faults w) as [|[|] f]; intros H; inversion H; repeat split.
Qed.

Lemma getProducts_sameDocuments w r w' :
  getProducts w = (r, w') -> sameDocuments w w'.
Proof.
  unfold getProducts, bind, storeCall, get.
  destruct (faults w) as [|[|] f]; intros H; inversion H; repeat split.
Qed.

Lemma getQuoteDetails_missing quoteId w :
  quoteOf quoteId w = None ->
  exists w',
    QuoteManager.getQuoteDetails quoteId w
    = (Err (Error "Failed to get quote details. Please try again."), w')
    /\ sameDocuments w w'.
Proof.
  intros Hq. unfold quoteOf in Hq.
  unfold QuoteManager.getQuoteDetails, getDocument_QUOTES, try_catch, bind,
    storeCall, get, console_error, modify, raise.
  destruct (faults w) as [|[|] f]; simpl; rewrite ?Hq;
    eexists; split; try reflexivity; repeat split.
Qed.

(** X7: the errors of [generateComparison].  Whatever goes wrong, the caller
    sees the one error "Failed to generate comparison. Please try again.";
    and for a quote that does not exist the call raises it and leaves every
    collection as it was: no comparison is created. *)
Theorem generateComparison_errors quoteId projectId w :
  (forall e w',
     generateComparison env quoteId projectId w = (Err e, w') ->
     e = Error "Failed to generate comparison. Please try again.")
  /\ (quoteOf quoteId w = None ->
      exists w',
        generateComparison env quoteId projectId w
        = (Err (Error "Failed to generate comparison. Please try again."), w')
        /\ sameDocuments w w').
Proof.
  split.
  - unfold generateComparison, try_catch. intros e w'.
    match goal with
    | |- context [match ?m w with _ => _ end] => destruct (m w) as [[g|e0] w1]
    end; intros H; inversion H. reflexivity.
  - intros Hq.
    destruct (getQuoteDetails_missing quoteId w Hq) as (w1 & H1 & S1).
    destruct (QuoteManager.getQuoteItems quoteId w1) as [r2 w2] eqn:H2.
    destruct (getProducts w2) as [r3 w3] eqn:H3.
    exists (printed "Failed to generate comparison:" w3). split.
    + unfold generateComparison, try_catch, readAll, settle.
      unfold bind at 1. unfold bind at 1. rewrite H1.
      unfold bind at 1. rewrite H2.
      unfold bind at 1. rewrite H3.
      reflexivity.
    + apply getQuoteItems_sameDocuments in H2.
      apply getProducts_sameDocuments in H3.
      eapply sameDocuments_trans; [exact S1|].
      eapply sameDocuments_trans; [exact H2|].
      eapply sameDocuments_trans; [exact H3|].
      apply printed_sameDocuments.
Qed.

End GenerateAndRead.

(** ** The status of a comparison *)

Section ComparisonStatus.

Import ComparisonQueries.

(** X8: a new status, the same figures.  When no store call fails and the
    comparison exists, [updateComparisonStatus] returns the comparison with
    the new status and with its totals, savings and identifiers untouched;
    [getComparisonDetails] then reads that same document, and the comparison
    items are as before. *)
Theorem updateComparisonStatus_keeps_totals id status w c :
  faults w = [] ->
  comparisonOf id w = Some c ->
  exists r w',
    updateComparisonStatus id status w = (Ok r, w')
    /\ Comparison.status r = status
    /\ Comparison.totalCompetitorPrice r = Comparison.totalCompetitorPrice c
    /\ Comparison.totalWarnkePrice r = Comparison.totalWarnkePrice c
    /\ Comparison.savingsAmount r = Comparison.savingsAmount c
    /\ Comparison.savingsPercentage r = Comparison.savingsPercentage c
    /\ Comparison.quoteId r = Comparison.quoteId c
    /\ getComparisonDetails id w' = (Ok r, w')
    /\ comparisonItems w' = comparisonItems w.
Proof.
  intros Hf Hc.
  assert (Hid : Comparison.comparisonId c = id).
  { unfold comparisonOf in Hc. apply find_some in Hc. destruct Hc as (_ & Hc).
    apply Nat.eqb_eq, Hc. }
  destruct (replace_of_find
              (fun x => Nat.eqb (Comparison.comparisonId x) id)
              (with_status c status) c (comparisons w) Hc) as (l' & Hl).
  exists (with_status c status), (set_comparisons l' w).
  split; [|repeat split].
  - unfold updateComparisonStatus, try_catch, bind at 1, getDocument_COMPARISONS,
      bind at 1, storeCall, get.
    rewrite Hf. fold (comparisonOf id w). rewrite Hc.
    unfold updateDocument_COMPARISONS, bind, storeCall, get, modify, ret.
    rewrite Hf.
    change (Comparison.comparisonId (with_status c status))
      with (Comparison.comparisonId c).
    rewrite Hid, Hl. reflexivity.
  - unfold getComparisonDetails, getDocument_COMPARISONS, try_catch, bind,
      storeCall, get. simpl. rewrite Hf.
    rewrite (find_of_replace _ (with_status c status) (comparisons w) l');
      [reflexivity| |exact Hl].
    simpl. rewrite Hid. apply Nat.eqb_refl.
Qed.

(** X9: a comparison that is not there.  For an identifier no comparison
    carries, [getComparisonDetails] and [updateComparisonStatus] raise, each
    its own message, and leave every collection as it was. *)
Theorem comparison_not_found id status w :
  comparisonOf id w = None ->
  (exists w',
     getComparisonDetails id w
     = (Err (Error "Failed to get comparison details. Please try again."), w')
     /\ sameDocuments w w')
  /\ (exists w',
        updateComparisonStatus id status w
        = (Err (Error "Failed to update comparison status. Please try again."),
           w')
        /\ sameDocuments w w').
Proof.
  intros Hc. unfold comparisonOf in Hc. split.
  - unfold getComparisonDetails, getDocument_COMPARISONS, try_catch, bind,
      storeCall, get, console_error, modify, raise.
    destruct (faults w) as [|[|] f]; simpl; rewrite ?Hc;
      eexists; split; try reflexivity; repeat split.
  - unfold updateComparisonStatus, getDocument_COMPARISONS, try_catch, bind,
      storeCall, get, console_error, modify, raise.
    destruct (faults w) as [|[|] f]; simpl; rewrite ?Hc;
      eexists; split; try reflexivity; repeat split.
Qed.

End ComparisonStatus.

(** ** Mapped options and their display *)

Section MappedOptions.

Import ComparisonManager.

Variable env : Env.t.

Lemma formatOptions_two_parts (o : Options.t) c rest :
  Options.material o = c :: rest ->
  Options.glassType o <> [] ->
  formatOptions env o
  = (Env.toUpperCase env [c] ++ rest ++ js " Frame")
    ++ js ", " ++ formatGlassType (Options.glassType o).
Proof.
  intros Hm Hg. unfold formatOptions. rewrite Hm.
  destruct (Options.glassType o) as [|g gs]; [contradiction|].
  reflexivity.
Qed.

Lemma canonical_nonempty (v : jsstring) :
  In v (windowTypes ++ materials ++ glassTypes) -> v <> [].
Proof.
  intros Hin Hv. subst v. vm_compute in Hin.
  repeat (destruct Hin as [Hin|Hin]; [discriminate|]). exact Hin.
Qed.

(** X10: the equivalent-side options.  Whatever the price computation returns,
    its options have a material and a glass type, so the formatted options
    always have the two parts: the material with its first letter in upper
    case and the word Frame, then one of the three glass phrases. *)
Theorem formatOptions_of_price quoteItem matchedProduct w r w' :
  calculateWarnkePrice env quoteItem matchedProduct w = (Ok r, w') ->
  exists c rest,
    Options.material (PriceResult.options r) = c :: rest
    /\ formatOptions env (PriceResult.options r)
       = (Env.toUpperCase env [c] ++ rest ++ js " Frame")
         ++ js ", " ++ formatGlassType (Options.glassType (PriceResult.options r))
    /\ In (formatGlassType (Options.glassType (PriceResult.options r)))
         [js "Single Pane Glass"; js "Double Pane Glass"; js "Triple Pane Glass"].
Proof.
  intros H.
  assert (Hcanon :
            In (Options.material (PriceResult.options r)) materials
            /\ In (Options.glassType (PriceResult.options r)) glassTypes).
  { destruct matchedProduct as [p|];
      [|rewrite calculateWarnkePrice_no_product in H; discriminate].
    destruct (pricingCall env quoteItem p) as [calculation|e] eqn:Hp.
    - rewrite (calculateWarnkePrice_priced env quoteItem p calculation w Hp) in H.
      inversion H; subst. simpl. split.
      + apply mapMaterial_canonical.
      + apply mapGlassType_canonical.
    - rewrite (calculateWarnkePrice_fallen_back env quoteItem p e w Hp) in H.
      inversion H; subst. simpl. split; vm_compute; tauto. }
  destruct Hcanon as (Hm & Hg).
  destruct (Options.material (PriceResult.options r)) as [|c rest] eqn:Hmat.
  { exfalso. apply (canonical_nonempty []); [|reflexivity].
    apply in_or_app. right. apply in_or_app. left. exact Hm. }
  exists c, rest. split; [reflexivity|]. split.
  - apply formatOptions_two_parts; [exact Hmat|].
    apply canonical_nonempty.
    apply in_or_app. right. apply in_or_app. right. exact Hg.
  - unfold glassTypes in Hg. simpl in Hg.
    destruct Hg as [<-|[<-|[<-|[]]]]; vm_compute; tauto.
Qed.

(** X11: mapping a mapped value.  On a host whose [toLowerCase] leaves the
    canonical values as they are, each of the three mappers sends each of its
    own values to itself, so mapping twice is mapping once. *)
Theorem mappers_idempotent (s : jsstring) :
  (forall v, In v (windowTypes ++ materials ++ glassTypes) ->
             Env.toLowerCase env v = v) ->
  mapWindowType env (mapWindowType env s) = mapWindowType env s
  /\ mapMaterial env (mapMaterial env s) = mapMaterial env s
  /\ mapGlassType env (mapGlassType env s) = mapGlassType env s.
Proof.
  intros Hlower.
  assert (Hfix : forall v, In v (windowTypes ++ materials ++ glassTypes) ->
                           mapWindowType env v = v \/ ~ In v windowTypes).
  { intros v Hin. pose proof (Hlower v Hin) as Hv.
    vm_compute in Hin.
    repeat (destruct Hin as [<-|Hin];
            [first [ left; unfold mapWindowType; rewrite Hv; reflexivity
                   | right; vm_compute; intuition discriminate ]|]).
    destruct Hin. }
  assert (Hfix2 : forall v, In v (windowTypes ++ materials ++ glassTypes) ->
                            mapMaterial env v = v \/ ~ In v materials).
  { intros v Hin. pose proof (Hlower v Hin) as Hv.
    vm_compute in Hin.
    repeat (destruct Hin as [<-|Hin];
            [first [ left; unfold mapMaterial; rewrite Hv; reflexivity
                   | right; vm_compute; intuition discriminate ]|]).
    destruct Hin. }
  assert (Hfix3 : forall v, In v (windowTypes ++ materials ++ glassTypes) ->
                            mapGlassType env v = v \/ ~ In v glassTypes).
  { intros v Hin. pose proof (Hlower v Hin) as Hv.
    vm_compute in Hin.
    repeat (destruct Hin as [<-|Hin];
            [first [ left; unfold mapGlassType; rewrite Hv; reflexivity
                   | right; vm_compute; intuition discriminate ]|]).
    destruct Hin. }
  split; [|split].
  - pose proof (mapWindowType_canonical env s) as Hc.
    destruct (Hfix _ (in_or_app _ _ _ (or_introl Hc))) as [H|H];
      [exact H|contradiction].
  - pose proof (mapMaterial_canonical env s) as Hc.
    destruct (Hfix2 _ (in_or_app _ _ _
                         (or_intror (in_or_app _ _ _ (or_introl Hc)))))
      as [H|H]; [exact H|contradiction].
  - pose proof (mapGlassType_canonical env s) as Hc.
    destruct (Hfix3 _ (in_or_app _ _ _
                         (or_intror (in_or_app _ _ _ (or_intror Hc)))))
      as [H|H]; [exact H|contradiction].
Qed.

End MappedOptions.

Lemma mappers_idempotent_witness :
  (forall v, In v (windowTypes ++ materials ++ glassTypes) ->
             ComparisonManager.Env.toLowerCase Sample.env v = v)
  /\ ComparisonManager.mapWindowType Sample.env
       (ComparisonManager.mapWindowType Sample.env (js "Bay Window, fixed"))
     = ComparisonManager.mapWindowType Sample.env (js "Bay Window, fixed").
Proof.
  assert (H : forall v, In v (windowTypes ++ materials ++ glassTypes) ->
                        ComparisonManager.Env.toLowerCase Sample.env v = v).
  { intros v Hin. vm_compute in Hin.
    repeat (destruct Hin as [<-|Hin]; [reflexivity|]). destruct Hin. }
  split; [exact H|].
  apply (mappers_idempotent Sample.env (js "Bay Window, fixed") H).
Defined.

(** ** Storing the parsed items *)

Section StoredItems.

Import QuoteProcessing.

Lemma numbered_length quoteId n items :
  List.length (numbered quoteId n items) = List.length items.
Proof.
  revert n. induction items as [|item rest IH]; intros n; simpl;
    [reflexivity|]. rewrite IH. reflexivity.
Qed.

Lemma numbered_quoteId quoteId n items :
  Forall (fun i => Nat.eqb (QuoteItem.quoteId i) quoteId = true)
    (numbered quoteId n items).
Proof.
  revert n. induction items as [|item rest IH]; intros n; simpl; constructor.
  - apply Nat.eqb_refl.
  - apply IH.
Qed.

Lemma createQuoteItems_from_faultless quoteId items :
  forall acc w,
    faults w = [] ->
    exists w',
      createQuoteItems_from acc quoteId items w
      = (Ok (acc ++ numbered quoteId (nextId w) items), w')
      /\ quoteItems w' = quoteItems w ++ numbered quoteId (nextId w) items
      /\ quotes w' = quotes w
      /\ faults w' = [].
Proof.
  induction items as [|item rest IH]; intros acc w Hf.
  - exists w. simpl. rewrite !app_nil_r. repeat split. exact Hf.
  - pose (x := newItem quoteId (nextId w) item).
    pose (w1 := set_quoteItems (quoteItems w ++ [x])
                  (set_nextId (S (nextId w)) w)).
    destruct (IH (acc ++ [x]) w1 Hf) as (w' & Hrun & Hitems & Hquotes & Hf').
    exists w'. split; [|split; [|split]].
    + simpl. unfold bind at 1, try_catch, bind at 1, generateId.
      unfold bind at 1, createDocument_QUOTE_ITEMS, bind at 1, bind at 1,
        storeCall.
      simpl. rewrite Hf. simpl. fold x. fold w1.
      rewrite Hrun. simpl. rewrite <- app_assoc. reflexivity.
    + rewrite Hitems. simpl. rewrite <- app_assoc. reflexivity.
    + exact Hquotes.
    + exact Hf'.
Qed.



End StoredItems.

(** ** Processing, verifying and deleting a quote *)

Section QuoteLifecycle.

Import QuoteProcessing.

Variable extractText : Quote.t -> result jsstring.
Variable Date_parse : jsstring -> option QuoteText.JSDate.
Variable Number_toString : float -> jsstring.

Lemma quoteOf_id quoteId w quote :
  quoteOf quoteId w = Some quote -> Quote.quoteId quote = quoteId.
Proof.
  unfold quoteOf. intros H. apply find_some in H. destruct H as (_ & H).
  apply Nat.eqb_eq, H.
Qed.

(** Writing a quote that is there, without store fault. *)
Lemma updateDocument_QUOTES_run doc w old :
  faults w = [] ->
  quoteOf (Quote.quoteId doc) w = Some old ->
  exists l',
    updateDocument_QUOTES doc w = (Ok doc, set_quotes l' w)
    /\ find (fun q => Nat.eqb (Quote.quoteId q) (Quote.quoteId doc)) l'
       = Some doc.
Proof.
  intros Hf Hold.
  destruct (replace_of_find
              (fun q => Nat.eqb (Quote.quoteId q) (Quote.quoteId doc))
              doc old (quotes w) Hold) as (l' & Hl).
  exists l'. split.
  - unfold updateDocument_QUOTES, bind, storeCall, get.
    rewrite Hf, Hl. reflexivity.
  - apply (find_of_replace _ doc (quotes w) l'); [apply Nat.eqb_refl|exact Hl].
Qed.

(** X13: a processed quote.  When no store call fails, the quote exists and
    its text can be extracted, [processQuote] returns the quote with the
    status processed, the quote number, the date and the total found in the
    text, and the number of parsed items; that quote is what the store then
    holds; and the parsed items, with the identifier of the quote, are added
    after the items the quote already had, none of which is removed. *)
Theorem processQuote_processed quoteId w quote text :
  faults w = [] ->
  quoteOf quoteId w = Some quote ->
  extractText quote = Ok text ->
  let parsedData := QuoteText.parseQuoteText Date_parse Number_toString text in
  let created := numbered quoteId (nextId w) (QuoteText.items parsedData) in
  exists w',
    processQuote extractText Date_parse Number_toString quoteId w
    = (Ok (processed quote parsedData created), w')
    /\ quoteOf quoteId w' = Some (processed quote parsedData created)
    /\ Quote.itemsCount (processed quote parsedData created)
       = List.length (QuoteText.items parsedData)
    /\ itemsOf quoteId w' = itemsOf quoteId w ++ created.
Proof.
  intros Hf Hq Htext parsedData created.
  pose proof (quoteOf_id _ _ _ Hq) as Hid.
  destruct (updateDocument_QUOTES_run (with_status quote "processing") w quote Hf)
    as (l1 & Hup1 & Hfind1).
  { simpl. rewrite Hid. exact Hq. }
  pose (w1 := set_quotes l1 w).
  destruct (createQuoteItems_from_faultless quoteId (QuoteText.items parsedData)
              [] w1 Hf) as (w2 & Hcreate & Hitems & Hquotes & Hf2).
  change (nextId w1) with (nextId w) in Hcreate, Hitems.
  fold created in Hcreate, Hitems.
  change ([] ++ created) with created in Hcreate.
  destruct (updateDocument_QUOTES_run (processed quote parsedData created) w2
              (with_status quote "processing") Hf2)
    as (l2 & Hup2 & Hfind2).
  { unfold quoteOf. rewrite Hquotes. exact Hfind1. }
  exists (set_quotes l2 w2). split; [|split; [|split]].
  - unfold processQuote. apply try_catch_Ok.
    unfold bind at 1, getDocument_QUOTES, bind at 1, storeCall, get.
    rewrite Hf. fold (quoteOf quoteId w). rewrite Hq.
    unfold bind at 1. rewrite Hup1. fold w1.
    unfold bind at 1. rewrite Htext. simpl of_result. unfold ret at 1.
    fold parsedData.
    unfold bind at 1, createQuoteItems. rewrite Hcreate.
    exact Hup2.
  - unfold quoteOf. simpl. simpl in Hfind2. rewrite Hid in Hfind2. exact Hfind2.
  - simpl. apply numbered_length.
  - unfold itemsOf. simpl. rewrite Hitems. simpl. rewrite filter_app.
    f_equal. apply filter_all, numbered_quoteId.
Qed.



(** X16: a quote that is not there.  For an identifier no quote carries,
    [processQuote] and [verifyQuote] raise, each its own message, whatever
    the store does, and leave every collection as it was. *)
Theorem quote_not_found quoteId w :
  quoteOf quoteId w = None ->
  (exists w',
     processQuote extractText Date_parse Number_toString quoteId w
     = (Err (Error "Failed to process quote. Please try again."), w')
     /\ sameDocuments w w')
  /\ (exists w',
        verifyQuote quoteId w
        = (Err (Error "Failed to verify quote. Please try again."), w')
        /\ sameDocuments w w').
Proof.
  intros Hq. unfold quoteOf in Hq. split.
  - unfold processQuote, markError, getDocument_QUOTES, try_catch, bind,
      storeCall, get, console_error, modify, raise, ret.
    destruct (faults w) as [|[|] [|[|] f]] eqn:Hf;
      repeat (progress (simpl; rewrite ?Hf, ?Hq));
      eexists; split; try reflexivity; repeat split.
  - unfold verifyQuote, getDocument_QUOTES, try_catch, bind,
      storeCall, get, console_error, modify, raise.
    destruct (faults w) as [|[|] f]; simpl; rewrite ?Hq;
      eexists; split; try reflexivity; repeat split.
Qed.

(** X17: nothing is ever deleted.  [deleteQuote] calls a function the module
    neither imports nor defines: it raises "Failed to delete quote. Please
    try again." on every call, before it asks for the items to be deleted,
    and the quote and its items stay in the store.  [deleteQuoteItems]
    changes no collection either, and returns only for a quote without
    items. *)
Theorem nothing_is_deleted quoteId w :
  (exists w',
     deleteQuote quoteId w
     = (Err (Error "Failed to delete quote. Please try again."), w')
     /\ sameDocuments w w'
     /\ faults w' = faults w)
  /\ (forall r w',
        deleteQuoteItems quoteId w = (r, w') ->
        sameDocuments w w' /\ (r = Ok tt -> itemsOf quoteId w = [])).
Proof.
  split.
  - eexists. split; [reflexivity|]. repeat split.
  - intros r w'.
    unfold deleteQuoteItems, query_QUOTE_ITEMS, deleteEach, deleteDocument,
      try_catch, bind, storeCall, get, console_error, modify, raise, ret.
    fold (itemsOf quoteId w).
    destruct (faults w) as [|[|] f]; simpl;
      try (change (filter (fun i => Nat.eqb (QuoteItem.quoteId i) quoteId)
                     (quoteItems w)) with (itemsOf quoteId w));
      destruct (itemsOf quoteId w) as [|i l]; simpl;
      intros H; inversion H; subst;
      (split; [repeat split|intros Hr; first [reflexivity|discriminate]]).
Qed.

End QuoteLifecycle.

(** ** What an edit leaves alone *)

Section EditFrame.

Import QuoteManager.











(** X19: an item that is not there.  For an identifier no quote item carries,
    [updateQuoteItem] raises "Failed to update quote item. Please try
    again.", whatever the store does, and leaves every collection as it
    was. *)
Theorem updateQuoteItem_not_found itemId e w :
  itemOf itemId w = None ->
  exists w',
    updateQuoteItem itemId e w
    = (Err (Error "Failed to update quote item. Please try again."), w')
    /\ sameDocuments w w'.
Proof.
  intros Hitem. unfold itemOf in Hitem.
  unfold updateQuoteItem, getDocument_QUOTE_ITEMS, try_catch, bind,
    storeCall, get, console_error, modify, raise.
  destruct (faults w) as [|[|] f]; simpl; rewrite ?Hitem;
    eexists; split; try reflexivity; repeat split.
Qed.

End EditFrame.

(** ** The items the parser returns *)

Section ParsedItems.

Import QuoteText.

Variable Date_parse : jsstring -> option JSDate.
Variable Number_toString : float -> jsstring.

Lemma Some_if {A} (c : bool) (x y : A) :
  (if c then Some x else None) = Some y -> c = true /\ y = x.
Proof.
  destruct c; intros H; [|discriminate H].
  split; [reflexivity|]. congruence.
Qed.

Lemma extractItem_wellFormed text m it :
  extractItem Number_toString text m = Some it -> wellFormed it.
Proof.
  unfold extractItem. cbv zeta. intros H.
  apply Some_if in H. destruct H as (Hc & ->).
  apply andb_true_iff in Hc. destruct Hc as (Hw & Hh).
  unfold wellFormed.
  split; [exact Hw|]. split; [exact Hh|]. split; [|split; reflexivity].
  cbn [description].
  match goal with
  | |- match ?d with [] => _ | _ :: _ => _ end <> [] => destruct d
  end.
  - intros H. apply app_eq_nil in H. destruct H as (_ & H). discriminate H.
  - discriminate.
Qed.

Lemma extractItems_wellFormed text ms :
  Forall wellFormed (extractItems Number_toString text ms)
  /\ (List.length (extractItems Number_toString text ms) <= List.length ms)%nat.
Proof.
  induction ms as [|m ms (IH & IHlen)]; [split; [constructor|apply le_n]|].
  cbn [extractItems].
  destruct (extractItem Number_toString text m) as [it|] eqn:Hm.
  - split; [constructor; [eapply extractItem_wellFormed, Hm|exact IH]|].
    cbn [List.length]. lia.
  - split; [exact IH|]. cbn [List.length]. lia.
Qed.

(** X20: the items of a parsed quote.  Whatever the text, every item
    [parseQuoteText] returns has a width and a height above 0 (a dimension
    that is 0 or cannot be read gives no item), a description that is not
    empty, a unit price that is its total price divided by its quantity, and
    the confidence score 0.8; and there is at most one item per dimension
    pattern found in the text. *)
Theorem parseQuoteText_items_wellformed (text : jsstring) :
  Forall wellFormed (items (parseQuoteText Date_parse Number_toString text))
  /\ (List.length (items (parseQuoteText Date_parse Number_toString text))
      <= List.length (RegExp.matchAll re_dimensions text))%nat.
Proof.
  exact (extractItems_wellFormed text (RegExp.matchAll re_dimensions text)).
Qed.

End ParsedItems.

(** ** The further properties at work in the sample world *)

(** The three items of the first quote against the catalog: the two that
    match a product are stored, in their order. *)
Lemma generateComparisonItems_persisted_witness :
  exists l w',
    ComparisonManager.generateComparisonItems Sample.env 500
      [Sample.item1; Sample.item2; Sample.item3]
      [Sample.vinylDoubleHung; Sample.woodCasement] Sample.world
    = (Ok l, w')
    /\ (comparisonItems w' = comparisonItems Sample.world ++ l
        /\ Forall (fun c => ComparisonItem.comparisonId c = 500) l
        /\ quotes w' = quotes Sample.world
        /\ quoteItems w' = quoteItems Sample.world
        /\ products w' = products Sample.world
        /\ comparisons w' = comparisons Sample.world).
Proof.
  eexists _, _. split; [vm_compute; reflexivity|].
  apply (generateComparisonItems_persisted Sample.env 500
           [Sample.vinylDoubleHung; Sample.woodCasement]
           [Sample.item1; Sample.item2; Sample.item3] Sample.world).
  vm_compute; reflexivity.
Defined.

Lemma generateComparison_returns_witness :
  (faults Sample.world = [] /\ quoteOf 1 Sample.world = Some Sample.quote)
  /\ exists g w',
       ComparisonManager.generateComparison Sample.env 1 7 Sample.world
       = (Ok g, w')
       /\ Comparison.totalCompetitorPrice (ComparisonManager.comparison g)
          = Quote.totalAmount Sample.quote
       /\ (List.length (ComparisonManager.items g)
           <= List.length (itemsOf 1 Sample.world))%nat.
Proof.
  split; [split; reflexivity|].
  apply (generateComparison_returns Sample.env 1 7 Sample.world Sample.quote);
    reflexivity.
Defined.

Lemma generateComparison_no_items_witness :
  (faults withoutItems = []
   /\ quoteOf 1 withoutItems = Some Sample.quote
   /\ itemsOf 1 withoutItems = [])
  /\ exists g w',
       ComparisonManager.generateComparison Sample.env 1 7 withoutItems
       = (Ok g, w')
       /\ ComparisonManager.items g = []
       /\ Comparison.totalWarnkePrice (ComparisonManager.comparison g)
          = 0%float
       /\ Comparison.savingsAmount (ComparisonManager.comparison g)
          = PrimFloat.sub (Quote.totalAmount Sample.quote) 0.
Proof.
  split; [repeat split|].
  apply (generateComparison_no_items Sample.env 1 7 withoutItems Sample.quote);
    reflexivity.
Defined.

Lemma generateComparison_read_back_witness :
  (faults Sample.world = [] /\ quoteOf 1 Sample.world = Some Sample.quote)
  /\ exists g w',
       ComparisonManager.generateComparison Sample.env 1 7 Sample.world
       = (Ok g, w')
       /\ ComparisonQueries.getComparisonDetails
            (Comparison.comparisonId (ComparisonManager.comparison g)) w'
          = (Ok (ComparisonManager.comparison g), w')
       /\ ComparisonQueries.getComparisonItems
            (Comparison.comparisonId (ComparisonManager.comparison g)) w'
          = (Ok (ComparisonManager.items g), w').
Proof.
  split; [split; reflexivity|].
  destruct (generateComparison_read_back Sample.env 1 7 Sample.world
              Sample.quote eq_refl eq_refl) as (g & w' & Hrun & Hd & Hi).
  exists g, w'. split; [exact Hrun|]. split; [exact Hd|].
  apply Hi. constructor.
Defined.

Lemma generateComparison_errors_witness :
  quoteOf 99 Sample.world = None
  /\ exists w',
       ComparisonManager.generateComparison Sample.env 99 7 Sample.world
       = (Err (Error "Failed to generate comparison. Please try again."), w')
       /\ sameDocuments Sample.world w'.
Proof.
  split; [reflexivity|].
  apply (proj2 (generateComparison_errors Sample.env 99 7 Sample.world)).
  reflexivity.
Defined.

Lemma updateComparisonStatus_keeps_totals_witness :
  (faults withComparison = []
   /\ comparisonOf 500 withComparison = Some sampleComparison)
  /\ exists r w',
       ComparisonQueries.updateComparisonStatus 500 "accepted" withComparison
       = (Ok r, w')
       /\ Comparison.status r = "accepted"%string
       /\ Comparison.totalCompetitorPrice r
          = Comparison.totalCompetitorPrice sampleComparison
       /\ Comparison.totalWarnkePrice r
          = Comparison.totalWarnkePrice sampleComparison
       /\ Comparison.savingsAmount r = Comparison.savingsAmount sampleComparison
       /\ Comparison.savingsPercentage r
          = Comparison.savingsPercentage sampleComparison
       /\ Comparison.quoteId r = Comparison.quoteId sampleComparison
       /\ ComparisonQueries.getComparisonDetails 500 w' = (Ok r, w')
       /\ comparisonItems w' = comparisonItems withComparison.
Proof.
  split; [split; reflexivity|].
  apply (updateComparisonStatus_keeps_totals 500 "accepted" withComparison
           sampleComparison); reflexivity.
Defined.

Lemma comparison_not_found_witness :
  comparisonOf 500 Sample.world = None
  /\ (exists w',
        ComparisonQueries.getComparisonDetails 500 Sample.world
        = (Err (Error "Failed to get comparison details. Please try again."),
           w')
        /\ sameDocuments Sample.world w')
  /\ (exists w',
        ComparisonQueries.updateComparisonStatus 500 "accepted" Sample.world
        = (Err (Error "Failed to update comparison status. Please try again."),
           w')
        /\ sameDocuments Sample.world w').
Proof.
  split; [reflexivity|].
  apply (comparison_not_found 500 "accepted" Sample.world). reflexivity.
Defined.

(** The pricing engine of the sample world is down, so the options are those
    of the fallback. *)
Lemma formatOptions_of_price_witness :
  exists r w',
    ComparisonManager.calculateWarnkePrice Sample.env Sample.item1
      (Some Sample.vinylDoubleHung) Sample.world = (Ok r, w')
    /\ ComparisonManager.formatOptions Sample.env
         (ComparisonManager.PriceResult.options r)
       = js "Vinyl Frame, Double Pane Glass".
Proof.
  eexists _, _. split; [vm_compute; reflexivity|].
  match goal with
  | |- context [ComparisonManager.PriceResult.options ?r] =>
      destruct (formatOptions_of_price Sample.env Sample.item1
                  (Some Sample.vinylDoubleHung) Sample.world r
                  (fallbackNote Sample.world))
        as (c & rest & Hm & Hf & _)
  end.
  - vm_compute; reflexivity.
  - rewrite Hf. vm_compute in Hm. inversion Hm; subst c rest.
    vm_compute; reflexivity.
Defined.

Lemma processQuote_processed_witness :
  (faults Sample.world = []
   /\ quoteOf 1 Sample.world = Some Sample.quote
   /\ readsSample Sample.quote = Ok sampleQuote)
  /\ let parsedData :=
       QuoteText.parseQuoteText QuoteText.Date_parse_mdy Number.toString
         sampleQuote in
     let created :=
       numbered 1 (nextId Sample.world) (QuoteText.items parsedData) in
     exists w',
       QuoteProcessing.processQuote readsSample QuoteText.Date_parse_mdy
         Number.toString 1 Sample.world
       = (Ok (QuoteProcessing.processed Sample.quote parsedData created), w')
       /\ quoteOf 1 w'
          = Some (QuoteProcessing.processed Sample.quote parsedData created)
       /\ Quote.itemsCount
            (QuoteProcessing.processed Sample.quote parsedData created)
          = List.length (QuoteText.items parsedData)
       /\ itemsOf 1 w' = itemsOf 1 Sample.world ++ created.
Proof.
  split; [repeat split|].
  apply (processQuote_processed readsSample QuoteText.Date_parse_mdy
           Number.toString 1 Sample.world Sample.quote sampleQuote);
    reflexivity.
Defined.



Lemma quote_not_found_witness :
  quoteOf 99 Sample.world = None
  /\ (exists w',
        QuoteProcessing.processQuote readsSample QuoteText.Date_parse_mdy
          Number.toString 99 Sample.world
        = (Err (Error "Failed to process quote. Please try again."), w')
        /\ sameDocuments Sample.world w')
  /\ (exists w',
        QuoteProcessing.verifyQuote 99 Sample.world
        = (Err (Error "Failed to verify quote. Please try again."), w')
        /\ sameDocuments Sample.world w').
Proof.
  split; [reflexivity|].
  apply (quote_not_found readsSample QuoteText.Date_parse_mdy Number.toString
           99 Sample.world). reflexivity.
Defined.


Lemma updateQuoteItem_not_found_witness :
  itemOf 99 Sample.world = None
  /\ exists w',
       QuoteManager.updateQuoteItem 99 (QuoteManager.unitPrice 120) Sample.world
       = (Err (Error "Failed to update quote item. Please try again."), w')
       /\ sameDocuments Sample.world w'.
Proof.
  split; [reflexivity|].
  apply (updateQuoteItem_not_found 99 (QuoteManager.unitPrice 120) Sample.world).
  reflexivity.
Defined.
